(** * bento-cli: bulk-operation guard and sequence-email input resolution

    A shallow embedding of [src/commands/sequences.ts] and
    [src/commands/subscribers/unsubscribe.ts].  Command handlers are
    modelled in a writer/error monad: a computation yields the trace of
    observable events it performed (file reads, remote calls, terminal
    output, prompts) together with its outcome (a value, a thrown
    exception, or a [process.exit]). *)

From Stdlib Require Import String Ascii List Bool Arith NArith Lia.
From Stdlib Require Import DecimalString.
Import ListNotations.
Open Scope string_scope.

Set Warnings "-register-all".

(** ** JavaScript values that cross the command boundary *)

Inductive json : Type :=
| JNull
| JBool (b : bool)
| JNum (n : nat)
| JStr (s : string)
| JArr (l : list json)
| JObj (fields : list (string * json)).

(** Thrown values.  [CLIErr] is [new CLIError(message, code, status)];
    [SysErr] is a Node system error carrying a [code] property (ENOENT,
    EACCES, ...); [PlainErr] is any other [Error]. *)
Inductive exn : Type :=
| CLIErr (message code : string) (status : nat)
| SysErr (code : string)
| PlainErr (message : string).

Definition exn_message (e : exn) : string :=
  match e with
  | CLIErr m _ _ => m
  | SysErr c => c
  | PlainErr m => m
  end.

(** [Boolean(s)] for an optional string flag: [undefined] and the empty
    string are falsy. *)
Definition truthy (s : option string) : bool :=
  match s with
  | Some "" => false
  | Some _ => true
  | None => false
  end.

(** The value a flag contributes to a template literal or a call once the
    code has established that it is set. *)
Definition flag_value (s : option string) : string :=
  match s with Some v => v | None => "undefined" end.

Definition js_truthy (j : json) : bool :=
  match j with
  | JNull => false
  | JBool b => b
  | JNum n => negb (n =? 0)%nat
  | JStr s => negb (s =? "")%string
  | JArr _ => true
  | JObj _ => true
  end.

Definition nat_to_string (n : nat) : string :=
  NilZero.string_of_uint (Nat.to_uint n).

(** [String(j)], as a template literal applies it.  An array prints its
    elements joined by commas, a null element printing as nothing. *)
Fixpoint js_toString (j : json) : string :=
  match j with
  | JNull => "null"
  | JBool true => "true"
  | JBool false => "false"
  | JNum n => nat_to_string n
  | JStr s => s
  | JArr l =>
      (fix elements (l : list json) : string :=
         match l with
         | [] => ""
         | x :: rest =>
             let printed := match x with JNull => "" | _ => js_toString x end in
             match rest with
             | [] => printed
             | _ => printed ++ "," ++ elements rest
             end
         end) l
  | JObj _ => "[object Object]"
  end.

Fixpoint assoc_get {A : Type} (k : string) (l : list (string * A)) : option A :=
  match l with
  | [] => None
  | (k', v) :: rest => if (k =? k')%string then Some v else assoc_get k rest
  end.

(** [result?.id] *)
Definition js_get_id (j : json) : json :=
  match j with
  | JObj fields => match assoc_get "id" fields with Some v => v | None => JNull end
  | _ => JNull
  end.

(** ** String utilities: [Array.prototype.join], [String.prototype.split]
    on one character, [String.prototype.trim] *)

Fixpoint join (sep : string) (l : list string) : string :=
  match l with
  | [] => ""
  | [x] => x
  | x :: rest => x ++ sep ++ join sep rest
  end.

Fixpoint split_on (sep : ascii) (s : string) : list string :=
  match s with
  | EmptyString => [EmptyString]
  | String c rest =>
      if Ascii.eqb c sep then EmptyString :: split_on sep rest
      else match split_on sep rest with
           | [] => [String c EmptyString]
           | h :: t => String c h :: t
           end
  end.

Definition newline : string := String (ascii_of_nat 10) EmptyString.

(** White space and line terminators of one byte: TAB, LF, VT, FF, CR
    and space. *)
Definition is_blank (c : ascii) : bool :=
  let n := nat_of_ascii c in
  ((9 <=? n)%nat && (n <=? 13)%nat) || (n =? 32)%nat.

(** U+00A0 in UTF-8. *)
Definition is_blank2 (a b : ascii) : bool :=
  (nat_of_ascii a =? 194)%nat && (nat_of_ascii b =? 160)%nat.

(** The white space and line terminators of three bytes in UTF-8:
    U+1680, U+2000 to U+200A, U+2028, U+2029, U+202F, U+205F, U+3000 and
    U+FEFF. *)
Definition is_blank3 (a b c : ascii) : bool :=
  let x := nat_of_ascii a in
  let y := nat_of_ascii b in
  let z := nat_of_ascii c in
  ((x =? 225) && (y =? 154) && (z =? 128))%nat
  || ((x =? 226) && (y =? 128)
      && (((128 <=? z) && (z <=? 138)) || (z =? 168) || (z =? 169) || (z =? 175)))%nat
  || ((x =? 226) && (y =? 129) && (z =? 159))%nat
  || ((x =? 227) && (y =? 128) && (z =? 128))%nat
  || ((x =? 239) && (y =? 187) && (z =? 191))%nat.

Fixpoint trim_start (s : string) : string :=
  match s with
  | EmptyString => EmptyString
  | String a r1 =>
      if is_blank a then trim_start r1
      else match r1 with
           | EmptyString => s
           | String b r2 =>
               if is_blank2 a b then trim_start r2
               else match r2 with
                    | EmptyString => s
                    | String c r3 => if is_blank3 a b c then trim_start r3 else s
                    end
           end
  end.

Fixpoint reverse_onto (s acc : string) : string :=
  match s with
  | EmptyString => acc
  | String c rest => reverse_onto rest (String c acc)
  end.

Definition reverse (s : string) : string := reverse_onto s EmptyString.

(** [trim_start] on a reversed string: the bytes of a character come
    last first. *)
Fixpoint trim_start_reversed (s : string) : string :=
  match s with
  | EmptyString => EmptyString
  | String a r1 =>
      if is_blank a then trim_start_reversed r1
      else match r1 with
           | EmptyString => s
           | String b r2 =>
               if is_blank2 b a then trim_start_reversed r2
               else match r2 with
                    | EmptyString => s
                    | String c r3 =>
                        if is_blank3 c b a then trim_start_reversed r3 else s
                    end
           end
  end.

Definition trim_end (s : string) : string :=
  reverse (trim_start_reversed (reverse s)).

Definition trim (s : string) : string := trim_end (trim_start s).

Fixpoint contains_char (c : ascii) (s : string) : bool :=
  match s with
  | EmptyString => false
  | String d rest => Ascii.eqb c d || contains_char c rest
  end.

(** ** Operation inputs handed to the SDK wrapper *)

Record CreateSequenceEmailInput : Type := mkCreateInput {
  ci_subject : string;
  ci_html : string;
  ci_inboxSnippet : option string;
  ci_delayInterval : option string;
  ci_delayCount : option N;
  ci_editorChoice : option string;
  ci_cc : option string;
  ci_bcc : option string;
  ci_to : option string
}.

Record UpdateSequenceEmailInput : Type := mkUpdateInput {
  ui_subject : option string;
  ui_html : option string
}.

(** ** Observable events *)

Inductive event : Type :=
| EvReadFile (path : string)
| EvCreateSequenceEmail (sequenceId : string) (input : CreateSequenceEmailInput)
| EvUpdateSequenceEmail (templateId : string) (input : UpdateSequenceEmailInput)
| EvUnsubscribe (email : string)
| EvStartSpinner (msg : string)
| EvStopSpinner (msg : option string)
| EvFailSpinner
| EvOutError (msg : string)
| EvOutSuccess (msg : string)
| EvOutJson (payload : json)
| EvPrintCsvErrors (rows : list (nat * string * string))
| EvPreview (name : string) (count : nat) (records : list json)
| EvOutInfo (msg : string)
| EvPrompt (name : string) (count : nat) (records : list json).

Definition is_read (e : event) : bool :=
  match e with EvReadFile _ => true | _ => false end.

Definition is_remote (e : event) : bool :=
  match e with
  | EvCreateSequenceEmail _ _ | EvUpdateSequenceEmail _ _ | EvUnsubscribe _ => true
  | _ => false
  end.

(** ** The effect monad *)

Inductive outcome (A : Type) : Type :=
| Done (a : A)
| Throw (e : exn)
| Exit (code : nat).

Arguments Done {A} a.
Arguments Throw {A} e.
Arguments Exit {A} code.

Definition M (A : Type) : Type := (list event * outcome A)%type.

Definition ret {A : Type} (a : A) : M A := ([], Done a).

Definition bind {A B : Type} (m : M A) (k : A -> M B) : M B :=
  match m with
  | (t, Done a) => let (t', r) := k a in ((t ++ t')%list, r)
  | (t, Throw e) => (t, Throw e)
  | (t, Exit c) => (t, Exit c)
  end.

Definition emit (e : event) : M unit := ([e], Done tt).

Definition throw {A : Type} (e : exn) : M A := ([], Throw e).

(** [process.exit(code)]: ends the process; no handler observes it. *)
Definition process_exit {A : Type} (code : nat) : M A := ([], Exit code).

(** [try { m } catch (error) { h error }] *)
Definition try_catch {A : Type} (m : M A) (h : exn -> M A) : M A :=
  match m with
  | (t, Throw e) => let (t', r) := h e in ((t ++ t')%list, r)
  | other => other
  end.

Notation "x <- m ;; k" := (bind m (fun x => k))
  (at level 61, m at next level, right associativity).
Notation "m ;;; k" := (bind m (fun _ => k))
  (at level 61, right associativity).

Definition trace {A : Type} (m : M A) : list event := fst m.
Definition result {A : Type} (m : M A) : outcome A := snd m.

Definition no_read {A : Type} (m : M A) : Prop :=
  forall e, In e (trace m) -> is_read e = false.

Definition no_remote {A : Type} (m : M A) : Prop :=
  forall e, In e (trace m) -> is_remote e = false.

(** ** The environment of one process *)

Inductive read_result : Type :=
| ReadOk (content : string)
| ReadFail (e : exn).

Inductive api_result : Type :=
| ApiOk (value : json)
| ApiFail (e : exn).

Record Env : Type := mkEnv {
  (* node:fs *)
  fs_readFile : string -> read_result;
  (* node:path and process.cwd() *)
  process_cwd : string;
  path_resolve : string -> string;
  path_relative : string -> string -> string;
  path_isAbsolute : string -> bool;
  (* core/output *)
  output_isJson : bool;
  (* subscribers/helpers: the address-shape rule, left open by the spec *)
  isValidEmail : string -> bool;
  (* core/sdk *)
  bento_createSequenceEmail : string -> CreateSequenceEmailInput -> api_result;
  bento_updateSequenceEmail : string -> UpdateSequenceEmailInput -> api_result;
  bento_unsubscribe : string -> option exn;
  (* terminal *)
  stdin_isTTY : bool;
  prompt_answer : bool;
  (* source of randomness for sampling *)
  random_draws : list nat
}.

(** ** [src/commands/sequences.ts] *)

Module Sequences.

Record CreateEmailOptions : Type := mkCreateEmailOptions {
  sequenceId : string;
  subject : string;
  html : option string;
  htmlFile : option string;
  inboxSnippet : option string;
  delayInterval : option string;
  delayCount : option string;
  editorChoice : option string;
  cc : option string;
  bcc : option string;
  to : option string
}.

Record UpdateEmailOptions : Type := mkUpdateEmailOptions {
  templateId : string;
  u_subject : option string;
  u_html : option string;
  u_htmlFile : option string
}.

Definition ALLOWED_DELAY_INTERVALS : list string :=
  ["minutes"; "hours"; "days"; "months"].
Definition MAX_TEMPLATE_HTML_BYTES : N := 524288.
Definition MAX_DELAY_COUNT : N := 999.

Definition validation_error {A : Type} (msg : string) : M A :=
  throw (CLIErr msg "VALIDATION_ERROR" 422).

Definition is_validation_error {A : Type} (r : outcome A) : bool :=
  match r with
  | Throw (CLIErr _ code _) => (code =? "VALIDATION_ERROR")%string
  | _ => false
  end.

Definition EXACTLY_ONE : string := "Provide exactly one of --html or --html-file.".

(** The computation ends by throwing the validation error with message
    [msg]. *)
Definition raises {A : Type} (msg : string) (m : M A) : bool :=
  match result m with
  | Throw (CLIErr m' code _) => (m' =? msg)%string && (code =? "VALIDATION_ERROR")%string
  | _ => false
  end.

(** *** Character classes and number parsing *)

Definition in_range (lo hi : nat) (c : ascii) : bool :=
  (lo <=? nat_of_ascii c)%nat && (nat_of_ascii c <=? hi)%nat.

Definition is_digit (c : ascii) : bool := in_range 48 57 c.

(** The class [[a-zA-Z0-9_-]]. *)
Definition is_id_char (c : ascii) : bool :=
  in_range 97 122 c || in_range 65 90 c || is_digit c
  || (nat_of_ascii c =? 95)%nat || (nat_of_ascii c =? 45)%nat.

Fixpoint all_chars (p : ascii -> bool) (s : string) : bool :=
  match s with
  | EmptyString => true
  | String c rest => p c && all_chars p rest
  end.

Fixpoint strip_prefix (p s : string) : option string :=
  match p, s with
  | EmptyString, _ => Some s
  | String a p', String b s' => if Ascii.eqb a b then strip_prefix p' s' else None
  | String _ _, EmptyString => None
  end.

Fixpoint digits_value (s : string) (acc : N) : N :=
  match s with
  | EmptyString => acc
  | String c rest =>
      digits_value rest (10 * acc + N.of_nat (nat_of_ascii c - 48))%N
  end.

Fixpoint pos_odd_part (p : positive) : positive :=
  match p with
  | xO q => pos_odd_part q
  | _ => p
  end.

(** An integer that a double holds exactly and that [String] prints in
    plain digits: at most 53 significant bits and below 1e21.  Up to
    2^53 that is every integer, and [String] prints each digit for digit.
    Above 2^53 [String] prints the shortest digits that read back as the
    same double, so there this is an upper estimate; such counts are
    refused either way, under one or the other of the two messages of
    [validateDelayOptions]. *)
Definition prints_back (n : N) : bool :=
  match n with
  | N0 => true
  | Npos p => (Npos (pos_odd_part p) <? 2 ^ 53)%N && (n <? 10 ^ 21)%N
  end.

(** [parsed = Number.parseInt(s, 10)] in the one case that passes
    [Number.isFinite(parsed) && parsed > 0 && String(parsed) === s]:
    [s] is a decimal numeral without sign, blank or leading zero whose
    value prints back unchanged. *)
Definition parse_positive_roundtrip (s : string) : option N :=
  match s with
  | EmptyString => None
  | String c _ =>
      if all_chars is_digit s && negb (Ascii.eqb c "0"%char)
         && prints_back (digits_value s 0)
      then Some (digits_value s 0)
      else None
  end.

Definition n_to_string (n : N) : string :=
  NilZero.string_of_uint (N.to_uint n).

Section WithEnv.

Variable env : Env.

Definition readFile (p : string) : M string :=
  emit (EvReadFile p) ;;;
  match fs_readFile env p with
  | ReadOk content => ret content
  | ReadFail e => throw e
  end.

Definition validateHtmlSize (html : string) : M unit :=
  if (MAX_TEMPLATE_HTML_BYTES <? N.of_nat (String.length html))%N
  then validation_error
         ("HTML content must be under " ++ n_to_string MAX_TEMPLATE_HTML_BYTES ++ " bytes.")
  else ret tt.

Definition validateSequenceId (sequenceId : string) : M unit :=
  match strip_prefix "sequence_" sequenceId with
  | Some rest =>
      if negb (rest =? "")%string && all_chars is_id_char rest
      then ret tt
      else validation_error "Sequence ID must be a valid prefix_id (e.g. sequence_abc123)."
  | None => validation_error "Sequence ID must be a valid prefix_id (e.g. sequence_abc123)."
  end.

Definition isOutsideProject (inputPath : string) : bool :=
  let resolvedPath := path_resolve env inputPath in
  let projectRoot := process_cwd env in
  let relativePath := path_relative env projectRoot resolvedPath in
  String.prefix ".." relativePath || path_isAbsolute env relativePath.

Definition resolveSafeHtmlPath (inputPath : string) : M string :=
  if isOutsideProject inputPath
  then validation_error "HTML file path must be within the current working directory."
  else ret (path_resolve env inputPath).

(** [error instanceof Error && "code" in error], then [String(error.code)].
    The code of a [CLIError] is never ENOENT or EACCES, so whether the
    class exposes it or not the handler takes the same branch. *)
Definition error_code (e : exn) : option string :=
  match e with
  | CLIErr _ code _ => Some code
  | SysErr code => Some code
  | PlainErr _ => None
  end.

Definition rethrow_read_error (htmlFile : option string) (error : exn) : M string :=
  let generic := validation_error ("Unable to read HTML file: " ++ flag_value htmlFile) in
  match error_code error with
  | Some code =>
      if (code =? "ENOENT")%string
      then validation_error ("HTML file not found: " ++ flag_value htmlFile)
      else if (code =? "EACCES")%string
      then validation_error
             ("Cannot read HTML file (permission denied): " ++ flag_value htmlFile)
      else generic
  | None => generic
  end.

Definition resolveHtmlInput (html htmlFile : option string) : M string :=
  let hasInlineHtml := truthy html in
  let hasHtmlFile := truthy htmlFile in
  if Bool.eqb hasInlineHtml hasHtmlFile
  then validation_error EXACTLY_ONE
  else if truthy html
  then validateHtmlSize (flag_value html) ;;; ret (flag_value html)
  else try_catch
         (safePath <- resolveSafeHtmlPath (flag_value htmlFile) ;;
          content <- readFile safePath ;;
          validateHtmlSize content ;;;
          ret content)
         (rethrow_read_error htmlFile).

Definition resolveOptionalHtmlInput (html htmlFile : option string) : M (option string) :=
  if negb (truthy html) && negb (truthy htmlFile)
  then ret None
  else h <- resolveHtmlInput html htmlFile ;; ret (Some h).

Definition validateDelayOptions (delayInterval delayCount : option string) : M unit :=
  (if (truthy delayInterval && negb (truthy delayCount))
      || (negb (truthy delayInterval) && truthy delayCount)
   then validation_error "--delay-interval and --delay-count must be provided together."
   else ret tt) ;;;
  (if truthy delayInterval
      && negb (existsb (String.eqb (flag_value delayInterval)) ALLOWED_DELAY_INTERVALS)
   then validation_error
          ("--delay-interval must be one of: " ++ join ", " ALLOWED_DELAY_INTERVALS)
   else ret tt) ;;;
  (if truthy delayCount
   then match parse_positive_roundtrip (flag_value delayCount) with
        | None => validation_error "--delay-count must be a positive integer."
        | Some parsed =>
            if (MAX_DELAY_COUNT <? parsed)%N
            then validation_error
                   ("--delay-count must be less than or equal to "
                    ++ n_to_string MAX_DELAY_COUNT ++ ".")
            else ret tt
        end
   else ret tt).

Definition handleError {A : Type} (error : exn) : M A :=
  emit (EvOutError (exn_message error)) ;;;
  process_exit 1.

Definition call_api (ev : event) (r : api_result) : M json :=
  emit ev ;;;
  match r with
  | ApiOk v => ret v
  | ApiFail e => throw e
  end.

Definition envelope (data : json) (count : nat) : json :=
  JObj [("success", JBool true); ("error", JNull); ("data", data);
        ("meta", JObj [("count", JNum count)])].

(** The action handler [registerSequencesCommands] installs for
    [sequences create-email]. *)
Definition createEmailAction (options : CreateEmailOptions) : M unit :=
  try_catch
    (validateSequenceId (sequenceId options) ;;;
     html <- resolveHtmlInput (html options) (htmlFile options) ;;
     validateDelayOptions (delayInterval options) (delayCount options) ;;;
     let input :=
       mkCreateInput (subject options) html (inboxSnippet options)
         (delayInterval options)
         (if truthy (delayCount options)
          then parse_positive_roundtrip (flag_value (delayCount options))
          else None)
         (editorChoice options) (cc options) (bcc options) (to options) in
     emit (EvStartSpinner "Creating sequence email...") ;;;
     result <- call_api (EvCreateSequenceEmail (sequenceId options) input)
                 (bento_createSequenceEmail env (sequenceId options) input) ;;
     emit (EvStopSpinner (Some "Sequence email created")) ;;;
     if output_isJson env
     then emit (EvOutJson (envelope result (if js_truthy result then 1 else 0)))
     else if js_truthy (js_get_id result)
     then emit (EvOutSuccess ("Created email " ++ js_toString (js_get_id result)
                              ++ " in sequence " ++ sequenceId options))
     else emit (EvOutSuccess ("Created email in sequence " ++ sequenceId options)))
    (fun error => emit EvFailSpinner ;;; handleError error).

(** The action handler [registerSequencesCommands] installs for
    [sequences update-email]. *)
Definition updateEmailAction (options : UpdateEmailOptions) : M unit :=
  try_catch
    (html <- resolveOptionalHtmlInput (u_html options) (u_htmlFile options) ;;
     (if negb (truthy (u_subject options)) && negb (truthy html)
      then validation_error
             "At least one of --subject, --html, or --html-file must be provided."
      else ret tt) ;;;
     let input := mkUpdateInput (u_subject options) html in
     emit (EvStartSpinner "Updating sequence email...") ;;;
     result <- call_api (EvUpdateSequenceEmail (templateId options) input)
                 (bento_updateSequenceEmail env (templateId options) input) ;;
     emit (EvStopSpinner (Some "Sequence email updated")) ;;;
     if output_isJson env
     then emit (EvOutJson (envelope result (if js_truthy result then 1 else 0)))
     else emit (EvOutSuccess ("Updated email template " ++ templateId options)))
    (fun error => emit EvFailSpinner ;;; handleError error).

End WithEnv.

End Sequences.

(** ** A POSIX instance of [node:path]

    Used to run the commands on concrete inputs; the theorems about
    [resolveSafeHtmlPath] hold for any implementation of the three path
    functions. *)

Module PosixPath.

(** Segments are kept innermost first while a path is normalised. *)
Definition push_segment (stack : list string) (seg : string) : list string :=
  if (seg =? "")%string || (seg =? ".")%string then stack
  else if (seg =? "..")%string then tl stack
  else seg :: stack.

Definition segments (p : string) : list string :=
  rev (fold_left push_segment (split_on "/"%char p) []).

Definition isAbsolute (p : string) : bool := String.prefix "/" p.

Definition resolve (cwd p : string) : string :=
  let full := if isAbsolute p then p else cwd ++ "/" ++ p in
  "/" ++ join "/" (segments full).

Fixpoint strip_common (a b : list string) : list string * list string :=
  match a, b with
  | x :: a', y :: b' => if (x =? y)%string then strip_common a' b' else (a, b)
  | _, _ => (a, b)
  end.

Definition relative (cwd from to : string) : string :=
  let (up, down) := strip_common (segments (resolve cwd from)) (segments (resolve cwd to)) in
  join "/" (map (fun _ => "..") up ++ down)%list.

End PosixPath.

(** ** A concrete process, for running the commands *)

Module Demo.

Definition cwd : string := "/work".

Definition files (p : string) : read_result :=
  if (p =? "/work/email.html")%string then ReadOk "<p>Hello</p>"
  else if (p =? "list.csv")%string then ReadOk (join newline ["a@x.com"; "b@x.com"; "c@x.com"; "d@x.com"; "e@x.com"])
  else if (p =? "bad.csv")%string then ReadOk (join newline ["a@x.com"; "not-an-email"; "a@x.com"; "b@x.com"])
  else if (p =? "/work/locked.html")%string then ReadFail (SysErr "EACCES")
  else ReadFail (SysErr "ENOENT").

(** The remote API refuses one address and accepts every other call. *)
Definition unsubscribe (email : string) : option exn :=
  if (email =? "c@x.com")%string
  then Some (CLIErr "Subscriber not found" "API_ERROR" 404)
  else None.

Definition env (isJson isTTY answer : bool) : Env :=
  {| fs_readFile := files;
     process_cwd := cwd;
     path_resolve := PosixPath.resolve cwd;
     path_relative := PosixPath.relative cwd;
     path_isAbsolute := PosixPath.isAbsolute;
     output_isJson := isJson;
     isValidEmail := fun s => contains_char "@"%char s && contains_char "."%char s;
     bento_createSequenceEmail := fun _ _ => ApiOk (JObj [("id", JNum 7)]);
     bento_updateSequenceEmail := fun _ _ => ApiOk (JObj [("id", JNum 7)]);
     bento_unsubscribe := unsubscribe;
     stdin_isTTY := isTTY;
     prompt_answer := answer;
     random_draws := [3; 1; 4; 1; 5; 9; 2; 6] |}.

(** A batch process: JSON output, no terminal. *)
Definition batch : Env := env true false false.

End Demo.


(** ** [src/commands/subscribers/helpers] *)

Module Helpers.

(** Modelled from the spec: the Target Set of spec 3, whose declaration
    in [commands/subscribers/helpers] is not among the sources.  The
    command reads its fields [emails] and [errors].  A rejected row is a
    line number, the raw value and a reason. *)
Definition RejectedRow : Type := (nat * string * string)%type.

Record EmailTargets : Type := mkTargets {
  emails : list string;
  errors : list RejectedRow
}.

(** Modelled from the spec: the reason recorded with a row whose value
    fails the address-shape rule (spec 3, 4.1). *)
Definition INVALID_EMAIL : string := "Invalid email address".

(** Modelled from the spec: part of reading one CSV line (spec 4.1).
    Drop a closing double quote, if the text ends in one. *)
Fixpoint strip_suffix_quote (s : string) : option string :=
  match s with
  | EmptyString => None
  | String c EmptyString => if Ascii.eqb c (ascii_of_nat 34) then Some EmptyString else None
  | String c rest =>
      match strip_suffix_quote rest with
      | Some inner => Some (String c inner)
      | None => None
      end
  end.

(** Modelled from the spec: a quoted first column stands for its
    content (spec 4.1). *)
Definition unquote (s : string) : string :=
  match s with
  | String q rest =>
      if Ascii.eqb q (ascii_of_nat 34)
      then match strip_suffix_quote rest with Some inner => inner | None => s end
      else s
  | EmptyString => s
  end.

(** Modelled from the spec: the first column of one line, trimmed; a
    line without comma or quote is the bare value (spec 4.1). *)
Definition first_column (line : string) : string :=
  unquote (trim (hd "" (split_on ","%char line))).

Section WithEnv.

Variable env : Env.

(** Modelled from the spec: one pass over the lines of the file,
    [lineno] counting from 1; blank lines are skipped, a valid address
    not yet seen is appended, a repeated one dropped, an invalid one
    rejected with its line (spec 4.1). *)
Fixpoint collect (lines : list string) (lineno : nat) (acc : EmailTargets) : EmailTargets :=
  match lines with
  | [] => acc
  | line :: rest =>
      let value := first_column line in
      if (value =? "")%string then collect rest (S lineno) acc
      else if isValidEmail env value
      then if existsb (String.eqb value) (emails acc)
           then collect rest (S lineno) acc
           else collect rest (S lineno) (mkTargets (emails acc ++ [value]) (errors acc))
      else collect rest (S lineno)
             (mkTargets (emails acc) (errors acc ++ [(lineno, value, INVALID_EMAIL)]))
  end.

(** Modelled from the spec: file-not-found, permission-denied and other
    read failures are distinct kinds of error (spec 4.1, 7). *)
Definition read_error (file : string) (e : exn) : exn :=
  match e with
  | SysErr "ENOENT" => CLIErr ("File not found: " ++ file) "VALIDATION_ERROR" 422
  | SysErr "EACCES" =>
      CLIErr ("Cannot read file (permission denied): " ++ file) "VALIDATION_ERROR" 422
  | _ => CLIErr ("Unable to read file: " ++ file) "VALIDATION_ERROR" 422
  end.

(** Modelled from the spec: [resolveEmailTargets] of
    [commands/subscribers/helpers], which is not among the sources (spec
    4.1).  Neither flag meaningfully set yields nothing; [--email] yields
    that one value or one rejected row 0; [--file] reads the file as text
    and collects accepted addresses in first-seen order and rejected rows
    by line; a failed read is raised to the caller by kind. *)
Definition resolveEmailTargets (email file : option string) : M (option EmailTargets) :=
  if truthy email
  then if isValidEmail env (flag_value email)
       then ret (Some (mkTargets [flag_value email] []))
       else ret (Some (mkTargets [] [(0, flag_value email, INVALID_EMAIL)]))
  else if truthy file
  then emit (EvReadFile (flag_value file)) ;;;
       match fs_readFile env (flag_value file) with
       | ReadOk content =>
           ret (Some (collect (split_on (ascii_of_nat 10) content) 1 (mkTargets [] [])))
       | ReadFail e => throw (read_error (flag_value file) e)
       end
  else ret None.

(** Modelled from the spec: [printCsvErrors] of the same module; it
    reports every rejected row it is handed (spec 4.4, 7). *)
Definition printCsvErrors (rows : list RejectedRow) : M unit :=
  emit (EvPrintCsvErrors rows).

(** Modelled from the spec: [handleSubscriberError] of the same module; a
    failure is reported and mapped to the generic exit code 1 (spec 6),
    as [handleError] of [sequences.ts] does. *)
Definition handleSubscriberError {A : Type} (error : exn) : M A :=
  emit (EvOutError (exn_message error)) ;;;
  process_exit 1.

End WithEnv.

End Helpers.

(** ** [src/core/safety] *)

Module Safety.

(** Modelled from the spec: the flags [Safety.addFlags] declares
    (spec 6), as commander hands them over in the options object. *)
Record RawFlags : Type := mkRawFlags {
  raw_dryRun : option bool;
  raw_limit : option string;
  raw_sample : option string;
  raw_confirm : option bool
}.

(** Modelled from the spec: the Safety Options value of spec 3. *)
Record SafetyOptions : Type := mkSafetyOptions {
  dryRun : bool;
  limit : option nat;
  sample : option nat;
  confirm : bool
}.

(** Modelled from the spec: the Operation Spec of spec 3; its fields
    are the ones the command fills in. *)
Record OperationSpec (T R : Type) : Type := mkSpec {
  name : string;
  items : list T;
  formatItem : T -> json;
  isDangerous : bool;
  execute : list T -> M R
}.

Arguments mkSpec {T R}.
Arguments name {T R}.
Arguments items {T R}.
Arguments formatItem {T R}.
Arguments isDangerous {T R}.
Arguments execute {T R}.

(** Modelled from the spec: the terminal states of spec 4.3 that return
    to the caller; Rejected is raised instead. *)
Inductive Outcome (R : Type) : Type :=
| Empty
| Previewed (records : list json) (count : nat)
| Aborted
| Executed (r : R).

Arguments Empty {R}.
Arguments Previewed {R}.
Arguments Aborted {R}.
Arguments Executed {R}.

(** Modelled from the spec: a configuration error is a validation
    error (spec 7). *)
Definition config_error {A : Type} (msg : string) : M A :=
  throw (CLIErr msg "VALIDATION_ERROR" 422).

Definition LIMIT_SAMPLE_CONFLICT : string :=
  "--limit and --sample cannot be used together.".

(** Modelled from the spec: the ConfirmationRejected failure of spec 7,
    with a message of its own. *)
Definition ConfirmationRejected : exn :=
  CLIErr "This operation is dangerous; pass --confirm to run it non-interactively."
    "CONFIRMATION_REJECTED" 1.

(** Modelled from the spec: how many formatted items the confirmation
    prompt shows, a tunable bound (spec 9). *)
Definition PREVIEW_SAMPLE : nat := 10.

(** Modelled from the spec: a boolean presence flag (spec 4.2). *)
Definition flag_set (b : option bool) : bool :=
  match b with Some true => true | _ => false end.

(** Modelled from the spec: a count parses as a positive integer;
    anything else is refused (spec 4.2). *)
Definition parse_positive (s : string) : option nat :=
  match s with
  | EmptyString => None
  | _ =>
      if Sequences.all_chars Sequences.is_digit s
      then match N.to_nat (Sequences.digits_value s 0) with
           | O => None
           | n => Some n
           end
      else None
  end.

(** Modelled from the spec: an absent count stays absent, a present one
    must parse (spec 4.2). *)
Definition parse_count (flag : string) (raw : option string) : M (option nat) :=
  match raw with
  | None => ret None
  | Some s =>
      match parse_positive s with
      | Some n => ret (Some n)
      | None => config_error (flag ++ " must be a positive integer.")
      end
  end.

(** Modelled from the spec: [Safety.parseOptions] of [core/safety], which
    is not among the sources (spec 4.2).  Pure; both reducers together,
    or a count that is not a positive integer, is a configuration error;
    the boolean flags default to false. *)
Definition parseOptions (raw : RawFlags) : M SafetyOptions :=
  match raw_limit raw, raw_sample raw with
  | Some _, Some _ => config_error LIMIT_SAMPLE_CONFLICT
  | _, _ =>
      l <- parse_count "--limit" (raw_limit raw) ;;
      s <- parse_count "--sample" (raw_sample raw) ;;
      ret (mkSafetyOptions (flag_set (raw_dryRun raw)) l s (flag_set (raw_confirm raw)))
  end.

(** Modelled from the spec: sampling is without replacement
    (spec 4.3, 9). *)
Fixpoint remove_nth {T : Type} (i : nat) (l : list T) : list T :=
  match i, l with
  | _, [] => []
  | O, _ :: rest => rest
  | S j, x :: rest => x :: remove_nth j rest
  end.

(** Modelled from the spec: draw [k] items without replacement, each at
    the position the next random draw selects among those that remain;
    asking for more than there are takes all (spec 4.3, 9). *)
Fixpoint draw {T : Type} (k : nat) (pool : list T) (draws : list nat) : list T :=
  match k with
  | O => []
  | S k' =>
      let i := hd 0 draws mod length pool in
      match nth_error pool i with
      | Some x => x :: draw k' (remove_nth i pool) (tl draws)
      | None => []
      end
  end.

Section WithEnv.

Variable env : Env.

(** Modelled from the spec: the Reduce state of spec 4.3, a stable
    prefix under [limit], a random draw under [sample], the full set
    otherwise. *)
Definition reduce {T : Type} (all : list T) (options : SafetyOptions) : list T :=
  match limit options with
  | Some k => firstn k all
  | None =>
      match sample options with
      | Some k => draw k all (random_draws env)
      | None => all
      end
  end.

(** Modelled from the spec: [safety.protect] of [core/safety], which is
    not among the sources (spec 4.3): Reduce, Preview, Dry-run check,
    Confirmation gate, Execute, in that order, with the terminal states
    Empty, Previewed, Aborted, Rejected (raised) and Executed. *)
Definition protect {T R : Type} (spec : OperationSpec T R) (options : SafetyOptions)
  : M (Outcome R) :=
  let working := reduce (items spec) options in
  match working with
  | [] => emit (EvOutInfo "No items to process.") ;;; ret Empty
  | _ =>
      let preview := map (formatItem spec) working in
      let run := r <- execute spec working ;; ret (Executed r) in
      if dryRun options
      then emit (EvPreview (name spec) (length working) preview) ;;;
           ret (Previewed preview (length working))
      else if negb (isDangerous spec) || confirm options
      then run
      else if stdin_isTTY env
      then emit (EvPrompt (name spec) (length working) (firstn PREVIEW_SAMPLE preview)) ;;;
           if prompt_answer env then run else ret Aborted
      else throw ConfirmationRejected
  end.

End WithEnv.

End Safety.

(** ** [src/commands/subscribers/unsubscribe.ts] *)

Module Unsubscribe.

Record UnsubscribeOptions : Type := mkOptions {
  email : option string;
  file : option string;
  dryRun : option bool;
  limit : option string;
  sample : option string;
  confirm : option bool
}.

(** The safety flags are read off the same options object. *)
Definition safety_flags (opts : UnsubscribeOptions) : Safety.RawFlags :=
  Safety.mkRawFlags (dryRun opts) (limit opts) (sample opts) (confirm opts).

Definition USAGE : string :=
  "Provide --email <email> or --file <path> to select subscribers.".

Section WithEnv.

Variable env : Env.

(** [await bento.unsubscribe(email)]: the resolved value is dropped, a
    rejection is thrown at the call. *)
Definition bento_unsubscribe_call (email : string) : M unit :=
  emit (EvUnsubscribe email) ;;;
  match bento_unsubscribe env email with
  | None => ret tt
  | Some e => throw e
  end.

Definition emitResult (count : nat) : M unit :=
  if output_isJson env
  then emit (EvOutJson
               (JObj [("success", JBool true);
                      ("error", JNull);
                      ("data", JObj [("updated", JNum count);
                                     ("action", JStr "unsubscribe")]);
                      ("meta", JObj [("count", JNum count)])]))
  else emit (EvOutSuccess ("Unsubscribed " ++ nat_to_string count ++ " subscriber(s).")).

(** [for (const email of emails) { await bento.unsubscribe(email); }] *)
Fixpoint unsubscribe_each (emails : list string) : M unit :=
  match emails with
  | [] => ret tt
  | email :: rest => bento_unsubscribe_call email ;;; unsubscribe_each rest
  end.

(** The [execute] callback of the operation spec. *)
Definition execute (emails : list string) : M unit :=
  unsubscribe_each emails ;;;
  emitResult (length emails).

Definition operation (emails : list string) : Safety.OperationSpec string unit :=
  Safety.mkSpec "Unsubscribe Subscribers" emails
    (fun email => JObj [("email", JStr email)]) true execute.

(** The action handler [registerUnsubscribeCommand] installs for
    [subscribers unsubscribe].  The arguments of [safety.protect] are
    evaluated left to right: the operation object, then
    [Safety.parseOptions(opts)], then the call. *)
Definition unsubscribeAction (opts : UnsubscribeOptions) : M unit :=
  try_catch
    (targets <- Helpers.resolveEmailTargets env (email opts) (file opts) ;;
     match targets with
     | None => emit (EvOutError USAGE) ;;; process_exit 2
     | Some targets =>
         (if (0 <? length (Helpers.errors targets))%nat
          then Helpers.printCsvErrors (Helpers.errors targets) ;;; process_exit 6
          else ret tt) ;;;
         options <- Safety.parseOptions (safety_flags opts) ;;
         Safety.protect env (operation (Helpers.emails targets)) options ;;;
         ret tt
     end)
    Helpers.handleSubscriberError.

(** The status the process ends with. *)
Definition exit_code {A : Type} (m : M A) : nat :=
  match result m with
  | Done _ => 0
  | Throw _ => 1
  | Exit code => code
  end.

End WithEnv.

End Unsubscribe.

(** ** Observations on a run *)

Module Observe.

Definition json_keys (j : json) : list string :=
  match j with
  | JObj fields => map fst fields
  | _ => []
  end.

Definition json_field (k : string) (j : json) : option json :=
  match j with
  | JObj fields => assoc_get k fields
  | _ => None
  end.

(** The counts of a parsed options value are positive, as the parser
    leaves them. *)
Definition positive_counts (o : Safety.SafetyOptions) : Prop :=
  (forall k, Safety.limit o = Some k -> 0 < k)
  /\ (forall k, Safety.sample o = Some k -> 0 < k).

(** How the command ends once targets are resolved to [t]-many events
    and the executor has run as [p]: the handler's [catch] turns a thrown
    failure into a report and exit 1. *)
Definition finish {R : Type} (t : list event) (p : M R) : M unit :=
  match p with
  | (tp, Done _) => ((t ++ tp)%list, Done tt)
  | (tp, Throw e) => ((t ++ tp ++ [EvOutError (exn_message e)])%list, Exit 1)
  | (tp, Exit c) => ((t ++ tp)%list, Exit c)
  end.

End Observe.

(** ** What a run of a sequence command did *)

Module Calls.

Definition remote_calls (t : list event) : list event := filter is_remote t.

Definition file_reads (t : list event) : list event := filter is_read t.

Definition succeeded {A : Type} (m : M A) : bool :=
  match result m with
  | Done _ => true
  | _ => false
  end.

(** One to three decimal digits, the first not 0. *)
Definition small_count (s : string) : bool :=
  match s with
  | EmptyString => false
  | String c _ =>
      Sequences.all_chars Sequences.is_digit s
      && negb (Ascii.eqb c "0"%char)
      && (String.length s <=? 3)%nat
  end.

(** The delay a request may carry: none at all, or an allowed interval
    with a count from 1 to 999. *)
Definition valid_delay (interval : option string) (count : option N) : Prop :=
  (truthy interval = false /\ count = None)
  \/ (In (flag_value interval) Sequences.ALLOWED_DELAY_INTERVALS
      /\ exists n, count = Some n /\ (1 <= n <= 999)%N).

Definition within_size (html : string) : Prop :=
  (N.of_nat (String.length html) <= Sequences.MAX_TEMPLATE_HTML_BYTES)%N.

Definition SIZE_MESSAGE : string := "HTML content must be under 524288 bytes.".

(** What a create request must satisfy to have passed the command's
    checks. *)
Definition valid_request (o : Sequences.CreateEmailOptions)
    (input : CreateSequenceEmailInput) : Prop :=
  Sequences.validateSequenceId (Sequences.sequenceId o) = ret tt
  /\ ci_subject input = Sequences.subject o
  /\ within_size (ci_html input)
  /\ ci_delayInterval input = Sequences.delayInterval o
  /\ valid_delay (ci_delayInterval input) (ci_delayCount input).

(** What an update request must satisfy to have passed the command's
    checks: it changes something, and any HTML is within the limit. *)
Definition valid_update (u : Sequences.UpdateEmailOptions)
    (input : UpdateSequenceEmailInput) : Prop :=
  ui_subject input = Sequences.u_subject u
  /\ (truthy (ui_subject input) = true \/ truthy (ui_html input) = true)
  /\ forall h, ui_html input = Some h -> within_size h.

(** The three ways a failed file read is reported, by error code. *)
Definition read_failure_prefix (e : exn) : string :=
  match Sequences.error_code e with
  | Some code =>
      if (code =? "ENOENT")%string then "HTML file not found: "
      else if (code =? "EACCES")%string
      then "Cannot read HTML file (permission denied): "
      else "Unable to read HTML file: "
  | None => "Unable to read HTML file: "
  end.

End Calls.

(** ** A process whose every file is one byte over the HTML limit *)

Module Oversize.

Fixpoint pad (n : nat) (s : string) : string :=
  match n with
  | O => s
  | S k => pad k (String "a"%char s)
  end.

Definition big : string := pad (N.to_nat 524289) "".

Definition env : Env :=
  {| fs_readFile := fun _ => ReadOk big;
     process_cwd := Demo.cwd;
     path_resolve := PosixPath.resolve Demo.cwd;
     path_relative := PosixPath.relative Demo.cwd;
     path_isAbsolute := PosixPath.isAbsolute;
     output_isJson := true;
     isValidEmail := fun _ => true;
     bento_createSequenceEmail := fun _ _ => ApiOk JNull;
     bento_updateSequenceEmail := fun _ _ => ApiOk JNull;
     bento_unsubscribe := fun _ => None;
     stdin_isTTY := false;
     prompt_answer := false;
     random_draws := [] |}.

End Oversize.

(** ** [src/commands/profile.ts] *)

Module Profile.

(** Thrown values: a [ConfigError] of [core/config], or any other. *)
Inductive perr : Type :=
| ConfigError (message : string)
| OtherError (message : string).

(** What an awaited call of a collaborator comes back with. *)
Inductive answer (A : Type) : Type :=
| Ok (a : A)
| Fail (e : perr).

Arguments Ok {A} a.
Arguments Fail {A} e.

(** One stored profile, as far as the commands read it. *)
Record ProfileEntry : Type := mkEntry {
  siteId : string;
  createdAt : string
}.

(** The loaded configuration: [current] is a name or null, [profiles]
    an object from names to entries, listed in [Object.keys] order. *)
Record Config : Type := mkConfig {
  current : option string;
  profiles : list (string * ProfileEntry)
}.

(** A row handed to [output.table]. *)
Record Row : Type := mkRow {
  r_name : string;
  r_current : string;
  r_siteId : string;
  r_created : string
}.

Inductive pevent : Type :=
| PvHasProfile (name : string)
| PvSetProfile (name apiKey siteId : string)
| PvLoad
| PvUseProfile (name : string)
| PvRemoveProfile (name : string)
| PvGetCurrent
| PvValidate (apiKey siteId : string)
| PvReset
| PvPassword (message : string)
| PvInput (message : string)
| PvConfirm (message : string)
| PvError (msg : string)
| PvInfo (msg : string)
| PvLog (msg : string)
| PvNewline
| PvSuccess (msg : string)
| PvJson (payload : json)
| PvTable (rows : list Row)
| PvStartSpinner (msg : string)
| PvFailSpinner (msg : string)
| PvStopSpinner (msg : string).

Inductive poutcome (A : Type) : Type :=
| PDone (a : A)
| PThrow (e : perr)
| PExit (code : nat).

Arguments PDone {A} a.
Arguments PThrow {A} e.
Arguments PExit {A} code.

Definition PM (A : Type) : Type := (list pevent * poutcome A)%type.

Definition pret {A : Type} (a : A) : PM A := ([], PDone a).

Definition pbind {A B : Type} (m : PM A) (k : A -> PM B) : PM B :=
  match m with
  | (t, PDone a) => let (t', r) := k a in ((t ++ t')%list, r)
  | (t, PThrow e) => (t, PThrow e)
  | (t, PExit c) => (t, PExit c)
  end.

Definition pemit (e : pevent) : PM unit := ([e], PDone tt).

Definition pthrow {A : Type} (e : perr) : PM A := ([], PThrow e).

Definition pexit {A : Type} (code : nat) : PM A := ([], PExit code).

Definition pcatch {A : Type} (m : PM A) (h : perr -> PM A) : PM A :=
  match m with
  | (t, PThrow e) => let (t', r) := h e in ((t ++ t')%list, r)
  | other => other
  end.

Notation "x <~ m ;; k" := (pbind m (fun x => k))
  (at level 61, m at next level, right associativity).
Notation "m ;;> k" := (pbind m (fun _ => k))
  (at level 61, right associativity).

Definition ptrace {A : Type} (m : PM A) : list pevent := fst m.
Definition presult {A : Type} (m : PM A) : poutcome A := snd m.

(** An awaited call: it is made, then yields its value or throws. *)
Definition call {A : Type} (ev : pevent) (r : answer A) : PM A :=
  pemit ev ;;>
  match r with
  | Ok a => pret a
  | Fail e => pthrow e
  end.

Record ProfileEnv : Type := mkProfileEnv {
  (* core/config *)
  config_hasProfile : string -> answer bool;
  config_setProfile : string -> string -> string -> answer unit;
  config_load : answer Config;
  config_useProfile : string -> answer unit;
  config_removeProfile : string -> answer unit;
  config_getCurrentProfileName : answer (option string);
  (* core/sdk *)
  validateCredentials : string -> string -> answer bool;
  (* @inquirer/prompts *)
  ask_password : answer string;
  ask_input : answer string;
  ask_confirm : answer bool;
  (* process.stdin.isTTY, output.isJson() *)
  isTTY : bool;
  isJson : bool;
  (* String.prototype.trim, Date.prototype.toLocaleDateString *)
  js_trim : string -> string;
  toLocaleDateString : string -> string
}.

(** A double quote, for the messages that quote the profile name. *)
Definition dq : string := String (ascii_of_nat 34) EmptyString.

Definition quoted (name : string) : string := dq ++ name ++ dq.

(** The check mark of the table's first column (U+2713 in UTF-8). *)
Definition CHECK : string :=
  String (ascii_of_nat 226) (String (ascii_of_nat 156) (String (ascii_of_nat 147) "")).

(** [options.yes]: an optional boolean flag. *)
Definition flag (b : option bool) : bool :=
  match b with Some true => true | _ => false end.

(** The [catch] every profile command ends with. *)
Definition on_error {A : Type} (error : perr) : PM A :=
  match error with
  | ConfigError message => pemit (PvError message) ;;> pexit 1
  | _ => pthrow error
  end.

Definition envelope (data : json) (count : nat) : json :=
  JObj [("success", JBool true); ("error", JNull); ("data", data);
        ("meta", JObj [("count", JNum count)])].

Section WithEnv.

Variable env : ProfileEnv.

(** [!s?.trim()] *)
Definition blank (s : option string) : bool :=
  match s with
  | None => true
  | Some v => (js_trim env v =? "")%string
  end.

Definition formatDateShort (isoDate : string) : string :=
  toLocaleDateString env isoDate.

(** The action of [profile add <name>]. *)
Definition addAction (name : string) (optApiKey optSiteId : option string) : PM unit :=
  pcatch
    (exists_ <~ call (PvHasProfile name) (config_hasProfile env name) ;;
     (if exists_ : bool
      then pemit (PvError ("Profile " ++ quoted name
                           ++ " already exists. Use 'bento auth login --profile "
                           ++ name ++ "' to update it.")) ;;>
           pexit 1
      else pret tt) ;;>
     creds <~ (if negb (truthy optApiKey) || negb (truthy optSiteId)
               then (if negb (isTTY env)
                        && (negb (truthy optApiKey) || negb (truthy optSiteId))
                     then pemit (PvError
                                   "Non-interactive mode requires --api-key and --site-id flags.") ;;>
                          pexit 1
                     else pret tt) ;;>
                    pemit (PvInfo ("Creating profile " ++ quoted name)) ;;>
                    pemit (PvLog
                             "Find your credentials at: https://app.bentonow.com/settings/api") ;;>
                    pemit PvNewline ;;>
                    apiKey <~ (if negb (truthy optApiKey)
                               then a <~ call (PvPassword "Enter your Bento API key:")
                                           (ask_password env) ;;
                                    pret (Some a)
                               else pret optApiKey) ;;
                    siteId <~ (if negb (truthy optSiteId)
                               then a <~ call (PvInput "Enter your Bento Site ID:")
                                           (ask_input env) ;;
                                    pret (Some a)
                               else pret optSiteId) ;;
                    pret (apiKey, siteId)
               else pret (optApiKey, optSiteId)) ;;
     (if blank (fst creds)
      then pemit (PvError "API key cannot be empty.") ;;> pexit 1
      else pret tt) ;;>
     (if blank (snd creds)
      then pemit (PvError "Site ID cannot be empty.") ;;> pexit 1
      else pret tt) ;;>
     let apiKey := js_trim env (flag_value (fst creds)) in
     let siteId := js_trim env (flag_value (snd creds)) in
     pemit (PvStartSpinner "Validating credentials...") ;;>
     isValid <~ call (PvValidate apiKey siteId) (validateCredentials env apiKey siteId) ;;
     (if negb isValid
      then pemit (PvFailSpinner "Invalid credentials") ;;>
           pemit (PvError "Invalid credentials. Please check your API key and Site ID.") ;;>
           pexit 1
      else pret tt) ;;>
     pemit (PvStopSpinner "Credentials validated") ;;>
     call (PvSetProfile name apiKey siteId) (config_setProfile env name apiKey siteId) ;;>
     if isJson env
     then pemit (PvJson (envelope (JObj [("profile", JStr name); ("siteId", JStr siteId)]) 1))
     else pemit (PvSuccess ("Profile " ++ quoted name ++ " created")) ;;>
          pemit (PvInfo ("Switch to it with: bento profile use " ++ name)))
    on_error.

(** One row of the listing; [cfg.profiles[name]] of a name that is not a
    key is [undefined], and reading its [siteId] throws. *)
Definition profile_row (cfg : Config) (name : string) : PM Row :=
  match assoc_get name (profiles cfg) with
  | Some p =>
      pret (mkRow name
              (match current cfg with
               | Some c => if (name =? c)%string then CHECK else ""
               | None => ""
               end)
              (siteId p) (formatDateShort (createdAt p)))
  | None => pthrow (OtherError "TypeError")
  end.

Fixpoint profile_rows (cfg : Config) (names : list string) : PM (list Row) :=
  match names with
  | [] => pret []
  | name :: rest =>
      r <~ profile_row cfg name ;;
      rs <~ profile_rows cfg rest ;;
      pret (r :: rs)
  end.

Definition row_json (p : Row) : json :=
  JObj [("name", JStr (r_name p));
        ("current", JBool (r_current p =? CHECK)%string);
        ("siteId", JStr (r_siteId p));
        ("created", JStr (r_created p))].

(** The action of [profile list]. *)
Definition listAction : PM unit :=
  pcatch
    (cfg <~ call PvLoad (config_load env) ;;
     let profileNames := map fst (profiles cfg) in
     if (length profileNames =? 0)%nat
     then if isJson env
          then pemit (PvJson (envelope (JArr []) 0))
          else pemit (PvInfo "No profiles configured. Run 'bento auth login' to create one.")
     else profileData <~ profile_rows cfg profileNames ;;
          if isJson env
          then pemit (PvJson (envelope (JArr (map row_json profileData))
                                (length profileData)))
          else pemit (PvTable profileData))
    on_error.

(** The action of [profile use <name>]. *)
Definition useAction (name : string) : PM unit :=
  pcatch
    (call (PvUseProfile name) (config_useProfile env name) ;;>
     pemit PvReset ;;>
     if isJson env
     then pemit (PvJson (envelope (JObj [("profile", JStr name)]) 1))
     else pemit (PvSuccess ("Switched to profile " ++ quoted name)))
    on_error.

(** The action of [profile remove <name>]. *)
Definition removeAction (name : string) (yes : option bool) : PM unit :=
  pcatch
    (exists_ <~ call (PvHasProfile name) (config_hasProfile env name) ;;
     (if negb exists_
      then pemit (PvError ("Profile " ++ quoted name ++ " not found.")) ;;> pexit 1
      else pret tt) ;;>
     proceed <~ (if negb (flag yes)
                 then (if negb (isTTY env)
                       then pemit (PvError
                                     "Non-interactive mode requires --yes flag to confirm deletion.") ;;>
                            pexit 1
                       else pret tt) ;;>
                      confirmed <~ call (PvConfirm ("Are you sure you want to remove profile "
                                                    ++ quoted name ++ "?"))
                                     (ask_confirm env) ;;
                      if negb confirmed
                      then pemit (PvInfo "Aborted.") ;;> pret false
                      else pret true
                 else pret true) ;;
     if negb proceed
     then pret tt
     else
       currentProfileName <~ call PvGetCurrent (config_getCurrentProfileName env) ;;
       let wasCurrentProfile :=
         match currentProfileName with
         | Some c => (c =? name)%string
         | None => false
         end in
       call (PvRemoveProfile name) (config_removeProfile env name) ;;>
       (if wasCurrentProfile then pemit PvReset else pret tt) ;;>
       if isJson env
       then pemit (PvJson (envelope (JObj [("profile", JStr name);
                                           ("wasCurrentProfile", JBool wasCurrentProfile)]) 1))
       else pemit (PvSuccess ("Profile " ++ quoted name ++ " removed")) ;;>
            if wasCurrentProfile
            then pemit (PvInfo
                          "This was the active profile. Run 'bento auth login' or 'bento profile use <name>' to authenticate.")
            else pret tt)
    on_error.

End WithEnv.

(** A store with two profiles, the first current, and a terminal whose
    user gives padded credentials and declines to confirm. *)
Definition demo (tty json : bool) : ProfileEnv :=
  {| config_hasProfile := fun name => Ok ((name =? "work") || (name =? "home"))%string;
     config_setProfile := fun _ _ _ => Ok tt;
     config_load :=
       Ok (mkConfig (Some "work")
             [("work", mkEntry "site-1" "2024-01-02T00:00:00Z");
              ("home", mkEntry "site-2" "2024-03-04T00:00:00Z")]);
     config_useProfile := fun name =>
       if ((name =? "work") || (name =? "home"))%string
       then Ok tt
       else Fail (ConfigError ("Profile " ++ quoted name ++ " does not exist"));
     config_removeProfile := fun _ => Ok tt;
     config_getCurrentProfileName := Ok (Some "work");
     validateCredentials := fun apiKey _ => Ok (apiKey =? "key-1")%string;
     ask_password := Ok " key-1 ";
     ask_input := Ok "site-3";
     ask_confirm := Ok false;
     isTTY := tty;
     isJson := json;
     js_trim := trim;
     toLocaleDateString := fun iso => substring 0 10 iso |}.

End Profile.

(** ** What the profile listing should show *)

Module Listing.

Import Profile.

Definition is_current (cfg : Config) (name : string) : bool :=
  match current cfg with
  | Some c => (name =? c)%string
  | None => false
  end.

(** The JSON entry of one stored profile. *)
Definition entry_json (env : ProfileEnv) (cfg : Config) (np : string * ProfileEntry) : json :=
  JObj [("name", JStr (fst np));
        ("current", JBool (is_current cfg (fst np)));
        ("siteId", JStr (siteId (snd np)));
        ("created", JStr (toLocaleDateString env (createdAt (snd np))))].

(** The table row of one stored profile. *)
Definition entry_row (env : ProfileEnv) (cfg : Config) (np : string * ProfileEntry) : Row :=
  mkRow (fst np) (if is_current cfg (fst np) then CHECK else "")
    (siteId (snd np)) (toLocaleDateString env (createdAt (snd np))).

(** Where the API key or site id that [profile add] works with came
    from: the flag, or the answer to the prompt on a terminal. *)
Definition credential_source (env : ProfileEnv) (given : option string)
    (asked : answer string) (used : string) : Prop :=
  (truthy given = true /\ used = js_trim env (flag_value given))
  \/ (truthy given = false /\ isTTY env = true
      /\ exists a, asked = Ok a /\ used = js_trim env a).

(** A command ended the way its [catch] intends: a [ConfigError] does
    not escape, and the only exit code used is 1. *)
Definition well_ended (run : PM unit) : Prop :=
  (forall m, presult run <> PThrow (ConfigError m))
  /\ (forall c, presult run = PExit c -> c = 1).

End Listing.

(** * Laws of the effect monad *)

Module MonadFacts.

Lemma bind_ret {A B : Type} (a : A) (k : A -> M B) : bind (ret a) k = k a.
Proof. unfold bind, ret. destruct (k a). reflexivity. Qed.

Lemma bind_ret_r {A : Type} (m : M A) : bind m ret = m.
Proof.
  destruct m as [t [a|e|c]]; cbn; try reflexivity. now rewrite app_nil_r.
Qed.

Lemma bind_assoc {A B C : Type} (m : M A) (k : A -> M B) (h : B -> M C) :
  bind (bind m k) h = bind m (fun a => bind (k a) h).
Proof.
  destruct m as [t [a|e|c]]; cbn; try reflexivity.
  destruct (k a) as [t1 [b|e|c]]; cbn; try reflexivity.
  destruct (h b) as [t2 r]. now rewrite app_assoc.
Qed.

(** A handler only sees what was thrown, after the events that came
    before it. *)
Lemma try_catch_throw {A : Type} (t : list event) (e : exn) (h : exn -> M A) :
  try_catch (t, Throw e) h = ((t ++ trace (h e))%list, result (h e)).
Proof. unfold try_catch, trace, result. destruct (h e). reflexivity. Qed.

(** [process.exit] is not caught. *)
Lemma try_catch_exit {A : Type} (t : list event) (c : nat) (h : exn -> M A) :
  try_catch (t, Exit c) h = (t, Exit c).
Proof. reflexivity. Qed.

(** One more event that is not a remote call keeps a run free of remote
    calls. *)
Lemma no_remote_snoc {A : Type} (m : M A) (t : list event) (ev : event) :
  trace m = (t ++ [ev])%list ->
  (forall e, In e t -> is_remote e = false) ->
  is_remote ev = false ->
  no_remote m.
Proof.
  intros Ht Hbefore Hev. unfold no_remote. rewrite Ht. intros e Hin.
  apply in_app_or in Hin. destruct Hin as [Hin | [<- | []]]; auto.
Qed.

End MonadFacts.

(** * Sequence emails: HTML input resolution *)

Module SequencesFacts.

Import Sequences.

Example resolve_inside :
  PosixPath.resolve "/work" "tpl/../email.html" = "/work/email.html"
  /\ PosixPath.relative "/work" "/work" "/work/email.html" = "email.html"
  /\ PosixPath.relative "/work" "/work" "/etc/passwd" = "../etc/passwd"
  /\ isOutsideProject Demo.batch "email.html" = false
  /\ isOutsideProject Demo.batch "../secret.html" = true
  /\ isOutsideProject Demo.batch "/etc/passwd" = true.
Proof. repeat split; reflexivity. Qed.

Example create_inline_runs :
  createEmailAction Demo.batch
    (mkCreateEmailOptions "sequence_1" "Hello" (Some "<p>Hi</p>") None None
       (Some "days") (Some "2") None None None None)
  = ([EvStartSpinner "Creating sequence email...";
      EvCreateSequenceEmail "sequence_1"
        (mkCreateInput "Hello" "<p>Hi</p>" None (Some "days") (Some 2%N) None None None None);
      EvStopSpinner (Some "Sequence email created");
      EvOutJson (envelope (JObj [("id", JNum 7)]) 1)], Done tt).
Proof. reflexivity. Qed.

Example create_from_file_runs :
  createEmailAction Demo.batch
    (mkCreateEmailOptions "sequence_1" "Hello" None (Some "email.html") None
       None None None None None None)
  = ([EvReadFile "/work/email.html";
      EvStartSpinner "Creating sequence email...";
      EvCreateSequenceEmail "sequence_1"
        (mkCreateInput "Hello" "<p>Hello</p>" None None None None None None None);
      EvStopSpinner (Some "Sequence email created");
      EvOutJson (envelope (JObj [("id", JNum 7)]) 1)], Done tt).
Proof. reflexivity. Qed.

Example create_invalid_interval :
  createEmailAction Demo.batch
    (mkCreateEmailOptions "sequence_1" "Hello" (Some "<p>Hello</p>") None None
       (Some "weeks") (Some "2") None None None None)
  = ([EvFailSpinner;
      EvOutError "--delay-interval must be one of: minutes, hours, days, months"],
     Exit 1).
Proof. reflexivity. Qed.

Example create_neither_flag :
  createEmailAction Demo.batch
    (mkCreateEmailOptions "sequence_1" "Hello" None None None
       None None None None None None)
  = ([EvFailSpinner; EvOutError EXACTLY_ONE], Exit 1).
Proof. reflexivity. Qed.

Example update_no_field :
  updateEmailAction Demo.batch (mkUpdateEmailOptions "12345" None None None)
  = ([EvFailSpinner;
      EvOutError "At least one of --subject, --html, or --html-file must be provided."],
     Exit 1).
Proof. reflexivity. Qed.

Section WithEnv.

Variable env : Env.

(** Every failure of [validateHtmlSize] carries its own message. *)
Lemma validateHtmlSize_cases (h : string) :
  validateHtmlSize h = ret tt
  \/ validateHtmlSize h = validation_error "HTML content must be under 524288 bytes.".
Proof.
  unfold validateHtmlSize.
  destruct (MAX_TEMPLATE_HTML_BYTES <? N.of_nat (String.length h))%N; [right | left];
    reflexivity.
Qed.

Lemma validateSequenceId_cases (s : string) :
  validateSequenceId s = ret tt
  \/ exists msg, validateSequenceId s = validation_error msg.
Proof.
  unfold validateSequenceId.
  destruct (strip_prefix "sequence_" s) as [rest|]; [|right; eauto].
  destruct (negb (rest =? "")%string && all_chars is_id_char rest); [left | right]; eauto.
Qed.

(** Both provisions equal: the check fires before anything else runs. *)
Lemma resolveHtmlInput_equal (html htmlFile : option string) :
  truthy html = truthy htmlFile ->
  resolveHtmlInput env html htmlFile = validation_error EXACTLY_ONE.
Proof.
  intros H. unfold resolveHtmlInput. rewrite H.
  now rewrite Bool.eqb_reflx.
Qed.

(** Whatever the read path raises is re-raised under one of three
    messages, none of them the exactly-one message. *)
Lemma rethrow_read_error_raises (htmlFile : option string) (e : exn) :
  trace (rethrow_read_error htmlFile e) = []
  /\ is_validation_error (result (rethrow_read_error htmlFile e)) = true
  /\ raises EXACTLY_ONE (rethrow_read_error htmlFile e) = false.
Proof.
  unfold rethrow_read_error.
  destruct (error_code e) as [code|]; [|repeat split].
  destruct (code =? "ENOENT")%string; [repeat split|].
  destruct (code =? "EACCES")%string; repeat split.
Qed.

Lemma raises_try_catch_throw {A : Type} (msg : string) (t : list event) (e : exn)
    (h : exn -> M A) :
  raises msg (try_catch (t, Throw e) h) = raises msg (h e).
Proof. rewrite MonadFacts.try_catch_throw. reflexivity. Qed.

Lemma resolveHtmlInput_differ (html htmlFile : option string) :
  truthy html <> truthy htmlFile ->
  raises EXACTLY_ONE (resolveHtmlInput env html htmlFile) = false.
Proof.
  intros H. unfold resolveHtmlInput.
  destruct (Bool.eqb (truthy html) (truthy htmlFile)) eqn:E.
  { apply Bool.eqb_prop in E. contradiction. }
  destruct (truthy html).
  - destruct (validateHtmlSize_cases (flag_value html)) as [-> | ->]; reflexivity.
  - unfold resolveSafeHtmlPath.
    destruct (isOutsideProject env (flag_value htmlFile)).
    + cbn [validation_error throw bind]. rewrite raises_try_catch_throw.
      apply rethrow_read_error_raises.
    + rewrite MonadFacts.bind_ret. unfold readFile.
      destruct (fs_readFile env (path_resolve env (flag_value htmlFile))) as [content|e].
      * cbn [bind emit ret app].
        destruct (validateHtmlSize_cases content) as [-> | ->]; [reflexivity|].
        cbn [validation_error throw bind emit ret app].
        rewrite raises_try_catch_throw. apply rethrow_read_error_raises.
      * cbn [validation_error throw bind emit ret app].
        rewrite raises_try_catch_throw. apply rethrow_read_error_raises.
Qed.

Lemma raises_bind_ret {A B : Type} (msg : string) (m : M A) (g : A -> B) :
  raises msg (x <- m ;; ret (g x)) = raises msg m.
Proof. destruct m as [t [a|e|c]]; reflexivity. Qed.

Lemma raises_exactly_one_iff (html htmlFile : option string) :
  raises EXACTLY_ONE (resolveHtmlInput env html htmlFile)
  = Bool.eqb (truthy html) (truthy htmlFile).
Proof.
  destruct (Bool.eqb (truthy html) (truthy htmlFile)) eqn:E.
  - apply Bool.eqb_prop in E. now rewrite (resolveHtmlInput_equal _ _ E).
  - apply resolveHtmlInput_differ. intros H. rewrite H, Bool.eqb_reflx in E. discriminate.
Qed.

(** A failed step inside the handler's [try] ends the command: the
    spinner is failed, the message printed, the process exits 1. *)
Lemma failed_trace_quiet {A : Type} (m : M A) (msg : string) :
  trace m = [EvFailSpinner; EvOutError msg] -> no_read m /\ no_remote m.
Proof.
  intros H. unfold no_read, no_remote. rewrite H.
  split; intros e [<- | [<- | []]]; reflexivity.
Qed.

Lemma create_stops_on_html_error (o : CreateEmailOptions) (msg : string) :
  resolveHtmlInput env (html o) (htmlFile o) = validation_error msg ->
  exists msg', createEmailAction env o = ([EvFailSpinner; EvOutError msg'], Exit 1)
               /\ (validateSequenceId (sequenceId o) = ret tt -> msg' = msg).
Proof.
  intros H. unfold createEmailAction.
  destruct (validateSequenceId_cases (sequenceId o)) as [-> | [m ->]].
  - rewrite MonadFacts.bind_ret, H. exists msg. split; [reflexivity | trivial].
  - exists m. split; [reflexivity | discriminate].
Qed.

Lemma update_stops_on_html_error (u : UpdateEmailOptions) (msg : string) :
  truthy (u_html u) || truthy (u_htmlFile u) = true ->
  resolveHtmlInput env (u_html u) (u_htmlFile u) = validation_error msg ->
  updateEmailAction env u = ([EvFailSpinner; EvOutError msg], Exit 1).
Proof.
  intros Hset H. unfold updateEmailAction, resolveOptionalHtmlInput.
  rewrite <- Bool.negb_orb, Hset. cbn [negb]. rewrite H. reflexivity.
Qed.

Lemma resolveHtmlInput_outside (html htmlFile : option string) :
  truthy htmlFile = true ->
  isOutsideProject env (flag_value htmlFile) = true ->
  exists msg, resolveHtmlInput env html htmlFile = validation_error msg.
Proof.
  intros Hset Hout. unfold resolveHtmlInput. rewrite Hset.
  destruct (truthy html); cbn [Bool.eqb]; [eauto|].
  unfold resolveSafeHtmlPath. rewrite Hout.
  exists ("Unable to read HTML file: " ++ flag_value htmlFile). reflexivity.
Qed.

End WithEnv.

(** C9 (as amended).  For create-email, HTML input resolution raises the
    exactly-one validation error if and only if [--html] and
    [--html-file] are both given or both absent (an empty string counts
    as absent), and then nothing is read, no remote call is made and the
    command exits 1.  For update-email the same error is raised if and
    only if both are given; with neither given the resolution succeeds
    with no HTML. *)
Theorem exactly_one_html_source (env : Env) (o : CreateEmailOptions)
    (u : UpdateEmailOptions) :
  raises EXACTLY_ONE (resolveHtmlInput env (html o) (htmlFile o))
    = Bool.eqb (truthy (html o)) (truthy (htmlFile o))
  /\ (truthy (html o) = truthy (htmlFile o) ->
      resolveHtmlInput env (html o) (htmlFile o) = validation_error EXACTLY_ONE
      /\ no_read (createEmailAction env o)
      /\ no_remote (createEmailAction env o)
      /\ result (createEmailAction env o) = Exit 1)
  /\ raises EXACTLY_ONE (resolveOptionalHtmlInput env (u_html u) (u_htmlFile u))
      = truthy (u_html u) && truthy (u_htmlFile u)
  /\ (truthy (u_html u) = false -> truthy (u_htmlFile u) = false ->
      resolveOptionalHtmlInput env (u_html u) (u_htmlFile u) = ret None)
  /\ (truthy (u_html u) = true -> truthy (u_htmlFile u) = true ->
      updateEmailAction env u = ([EvFailSpinner; EvOutError EXACTLY_ONE], Exit 1)).
Proof.
  split; [apply raises_exactly_one_iff|].
  split.
  { intros E. pose proof (resolveHtmlInput_equal env _ _ E) as H.
    split; [exact H|].
    destruct (create_stops_on_html_error env o _ H) as (msg & Hrun & _).
    destruct (failed_trace_quiet (createEmailAction env o) msg) as [Hr Hc];
      [now rewrite Hrun|].
    repeat split; trivial. now rewrite Hrun. }
  split.
  { unfold resolveOptionalHtmlInput.
    destruct (truthy (u_html u)) eqn:Eh, (truthy (u_htmlFile u)) eqn:Ef; cbn [negb andb];
      try reflexivity;
      rewrite raises_bind_ret, raises_exactly_one_iff, Eh, Ef; reflexivity. }
  split.
  { intros Eh Ef. unfold resolveOptionalHtmlInput. now rewrite Eh, Ef. }
  intros Eh Ef. apply update_stops_on_html_error.
  - now rewrite Eh.
  - apply resolveHtmlInput_equal. now rewrite Eh, Ef.
Qed.

Lemma exactly_one_html_source_witness :
  updateEmailAction Demo.batch
    (mkUpdateEmailOptions "12345" None (Some "<p>Inline</p>") (Some "email.html"))
  = ([EvFailSpinner; EvOutError EXACTLY_ONE], Exit 1).
Proof.
  apply (exactly_one_html_source Demo.batch
           (mkCreateEmailOptions "sequence_1" "Hello" None None None None None None None
              None None)
           (mkUpdateEmailOptions "12345" None (Some "<p>Inline</p>") (Some "email.html")));
    reflexivity.
Defined.

(** C9 (as stated) fails both ways.  update-email with neither flag
    raises nothing and goes on to the remote call; create-email with
    exactly one flag still raises a validation error when the file
    cannot be read. *)
Lemma equal_provisions_not_the_only_error :
  truthy (@None string) = truthy (@None string)
  /\ resolveOptionalHtmlInput Demo.batch None None = ret None
  /\ updateEmailAction Demo.batch (mkUpdateEmailOptions "12345" (Some "Hello") None None)
     = ([EvStartSpinner "Updating sequence email...";
         EvUpdateSequenceEmail "12345" (mkUpdateInput (Some "Hello") None);
         EvStopSpinner (Some "Sequence email updated");
         EvOutJson (envelope (JObj [("id", JNum 7)]) 1)], Done tt)
  /\ truthy (@None string) <> truthy (Some "missing.html")
  /\ resolveHtmlInput Demo.batch None (Some "missing.html")
     = ([EvReadFile "/work/missing.html"],
        Throw (CLIErr "HTML file not found: missing.html" "VALIDATION_ERROR" 422)).
Proof.
  repeat split; try reflexivity. discriminate.
Qed.

(** C10.  An [--html-file] argument whose path relative to the working
    directory starts with [..] or is absolute makes HTML input resolution
    raise a validation error before any file is read; create-email and
    update-email then report it and exit 1 without reading a file or
    calling the remote API. *)
Theorem html_file_outside_cwd_rejected (env : Env) (o : CreateEmailOptions)
    (u : UpdateEmailOptions) (p : string) :
  p <> "" ->
  isOutsideProject env p = true ->
  (forall html,
      is_validation_error (result (resolveHtmlInput env html (Some p))) = true
      /\ trace (resolveHtmlInput env html (Some p)) = [])
  /\ (htmlFile o = Some p ->
      no_read (createEmailAction env o) /\ no_remote (createEmailAction env o)
      /\ result (createEmailAction env o) = Exit 1
      /\ exists msg, trace (createEmailAction env o) = [EvFailSpinner; EvOutError msg])
  /\ (u_htmlFile u = Some p ->
      no_read (updateEmailAction env u) /\ no_remote (updateEmailAction env u)
      /\ result (updateEmailAction env u) = Exit 1
      /\ exists msg, trace (updateEmailAction env u) = [EvFailSpinner; EvOutError msg]).
Proof.
  intros Hp Hout.
  assert (Hset : truthy (Some p) = true) by (destruct p; [contradiction | reflexivity]).
  assert (Hres : forall html, exists msg,
             resolveHtmlInput env html (Some p) = validation_error msg).
  { intros html. now apply resolveHtmlInput_outside. }
  split; [|split].
  - intros html. destruct (Hres html) as [msg ->]. split; reflexivity.
  - intros Hf. destruct (Hres (html o)) as [msg H]. rewrite <- Hf in H.
    destruct (create_stops_on_html_error env o msg H) as (msg' & Hrun & _).
    destruct (failed_trace_quiet (createEmailAction env o) msg') as [Hr Hc];
      [now rewrite Hrun|].
    repeat split; trivial; rewrite Hrun; [reflexivity | now exists msg'].
  - intros Hf. destruct (Hres (u_html u)) as [msg H]. rewrite <- Hf in H.
    assert (Hrun : updateEmailAction env u = ([EvFailSpinner; EvOutError msg], Exit 1)).
    { apply update_stops_on_html_error; [|exact H].
      rewrite Hf, Hset. apply Bool.orb_true_r. }
    destruct (failed_trace_quiet (updateEmailAction env u) msg) as [Hr Hc];
      [now rewrite Hrun|].
    repeat split; trivial; rewrite Hrun; [reflexivity | now exists msg].
Qed.

Lemma html_file_outside_cwd_rejected_witness :
  result (createEmailAction Demo.batch
            (mkCreateEmailOptions "sequence_1" "Hello" None (Some "../secret.html") None
               None None None None None None)) = Exit 1.
Proof.
  apply (html_file_outside_cwd_rejected Demo.batch
           (mkCreateEmailOptions "sequence_1" "Hello" None (Some "../secret.html") None
              None None None None None None)
           (mkUpdateEmailOptions "12345" None None (Some "../secret.html"))
           "../secret.html");
    [discriminate | reflexivity | reflexivity].
Defined.

Example outside_file_never_read :
  createEmailAction Demo.batch
    (mkCreateEmailOptions "sequence_1" "Hello" None (Some "/etc/passwd") None
       None None None None None None)
  = ([EvFailSpinner; EvOutError "Unable to read HTML file: /etc/passwd"], Exit 1).
Proof. reflexivity. Qed.

End SequencesFacts.

(** * The protection executor *)

Module SafetyFacts.

Import Safety Observe.

Example parse_examples :
  parseOptions (mkRawFlags None (Some "5") (Some "5") None)
    = config_error LIMIT_SAMPLE_CONFLICT
  /\ parseOptions (mkRawFlags (Some true) (Some "2") None None)
     = ret (mkSafetyOptions true (Some 2) None false)
  /\ parseOptions (mkRawFlags None None (Some "0") None)
     = config_error "--sample must be a positive integer."
  /\ parseOptions (mkRawFlags None (Some "2.5") None (Some true))
     = config_error "--limit must be a positive integer."
  /\ parseOptions (mkRawFlags None None None None)
     = ret (mkSafetyOptions false None None false).
Proof. repeat split; reflexivity. Qed.

Example draw_example :
  draw 3 ["a"; "b"; "c"; "d"; "e"] [3; 1; 4; 1] = ["d"; "b"; "c"]
  /\ draw 9 ["a"; "b"] [1; 1; 1] = ["b"; "a"].
Proof. split; reflexivity. Qed.

Lemma parse_positive_pos (s : string) (n : nat) :
  parse_positive s = Some n -> 0 < n.
Proof.
  unfold parse_positive. destruct s as [|c s]; [discriminate|].
  destruct (Sequences.all_chars Sequences.is_digit (String c s)); [|discriminate].
  destruct (N.to_nat (Sequences.digits_value (String c s) 0)) as [|m];
    [discriminate|].
  intros [= <-]. lia.
Qed.

(** What [parseOptions] returns satisfies the invariant of the options
    value: counts are positive and at most one reducer is set. *)
Lemma parseOptions_invariant (raw : RawFlags) (t : list event) (o : SafetyOptions) :
  parseOptions raw = (t, Done o) ->
  t = [] /\ positive_counts o /\ (limit o = None \/ sample o = None).
Proof.
  unfold parseOptions, parse_count, positive_counts.
  destruct (raw_limit raw) as [rl|], (raw_sample raw) as [rs|]; cbn.
  - discriminate.
  - destruct (parse_positive rl) as [n|] eqn:E; cbn; [|discriminate].
    intros [= <- <-]; cbn. repeat split; try (now right).
    + intros k [= <-]. exact (parse_positive_pos rl n E).
    + discriminate.
  - destruct (parse_positive rs) as [n|] eqn:E; cbn; [|discriminate].
    intros [= <- <-]; cbn. repeat split; try (now left).
    + discriminate.
    + intros k [= <-]. exact (parse_positive_pos rs n E).
  - intros [= <- <-]; cbn. repeat split; try (now left); discriminate.
Qed.

Lemma draw_nonempty {T : Type} (k : nat) (pool : list T) (draws : list nat) :
  0 < k -> pool <> [] -> draw k pool draws <> [].
Proof.
  intros Hk Hp. destruct k as [|k]; [lia|]. cbn [draw].
  destruct (nth_error pool (hd 0 draws mod length pool)) eqn:E; [discriminate|].
  apply nth_error_None in E.
  assert (length pool <> 0) by (destruct pool; [contradiction | discriminate]).
  pose proof (Nat.mod_upper_bound (hd 0 draws) (length pool) H). lia.
Qed.

Section WithEnv.

Variable env : Env.

Lemma reduce_nonempty {T : Type} (all : list T) (o : SafetyOptions) :
  all <> [] -> positive_counts o -> reduce env all o <> [].
Proof.
  intros Hall [Hl Hs]. unfold reduce.
  destruct (limit o) as [k|] eqn:El.
  - specialize (Hl k eq_refl). destruct k; [lia|]. destruct all; [contradiction|].
    discriminate.
  - destruct (sample o) as [k|] eqn:Es; [|exact Hall].
    apply draw_nonempty; auto.
Qed.

Lemma reduce_limit {T : Type} (all : list T) (o : SafetyOptions) (k : nat) :
  limit o = Some k -> reduce env all o = firstn k all.
Proof. intros H. unfold reduce. now rewrite H. Qed.

(** Past an empty working set, [protect] is decided by the flags. *)
Lemma protect_nonempty {T R : Type} (spec : OperationSpec T R) (o : SafetyOptions) :
  reduce env (items spec) o <> [] ->
  protect env spec o =
    let working := reduce env (items spec) o in
    let preview := map (formatItem spec) working in
    let run := r <- execute spec working ;; ret (Executed r) in
    if dryRun o
    then ([EvPreview (name spec) (length working) preview],
          Done (Previewed preview (length working)))
    else if negb (isDangerous spec) || confirm o
    then run
    else if stdin_isTTY env
    then emit (EvPrompt (name spec) (length working) (firstn PREVIEW_SAMPLE preview)) ;;;
         if prompt_answer env then run else ret Aborted
    else throw ConfirmationRejected.
Proof.
  intros H. unfold protect.
  destruct (reduce env (items spec) o) as [|x w]; [contradiction|].
  destruct (dryRun o); reflexivity.
Qed.

End WithEnv.

End SafetyFacts.

(** * The unsubscribe command *)

Module UnsubscribeFacts.

Import Helpers Safety Unsubscribe Observe.

Example resolve_bad_csv :
  resolveEmailTargets Demo.batch None (Some "bad.csv")
  = ([EvReadFile "bad.csv"],
     Done (Some (mkTargets ["a@x.com"; "b@x.com"]
                   [(2, "not-an-email", INVALID_EMAIL)]))).
Proof. reflexivity. Qed.

Example interactive_yes_runs :
  unsubscribeAction (Demo.env false true true)
    (mkOptions (Some "a@x.com") None None None None None)
  = ([EvPrompt "Unsubscribe Subscribers" 1 [JObj [("email", JStr "a@x.com")]];
      EvUnsubscribe "a@x.com";
      EvOutSuccess "Unsubscribed 1 subscriber(s)."], Done tt).
Proof. reflexivity. Qed.

Section WithEnv.

Variable env : Env.

Lemma unsubscribe_each_ok (l : list string) :
  (forall x, In x l -> bento_unsubscribe env x = None) ->
  unsubscribe_each env l = (map EvUnsubscribe l, Done tt).
Proof.
  induction l as [|x l IH]; intros H; [reflexivity|].
  cbn [unsubscribe_each]. unfold bento_unsubscribe_call.
  rewrite (H x (or_introl eq_refl)), IH by (intros y Hy; apply H; now right).
  reflexivity.
Qed.

(** The loop has no handler: the first rejected call ends it. *)
Lemma unsubscribe_each_stops (done rest : list string) (bad : string) (e : exn) :
  (forall x, In x done -> bento_unsubscribe env x = None) ->
  bento_unsubscribe env bad = Some e ->
  unsubscribe_each env (done ++ bad :: rest)%list
  = (map EvUnsubscribe (done ++ [bad])%list, Throw e).
Proof.
  intros Hok Hbad. induction done as [|x done IH]; cbn [app unsubscribe_each].
  - unfold bento_unsubscribe_call. rewrite Hbad. reflexivity.
  - unfold bento_unsubscribe_call at 1. rewrite (Hok x (or_introl eq_refl)).
    rewrite IH by (intros y Hy; apply Hok; now right). reflexivity.
Qed.

Lemma execute_ok (l : list string) :
  (forall x, In x l -> bento_unsubscribe env x = None) ->
  execute env l
  = ((map EvUnsubscribe l ++ trace (emitResult env (length l)))%list, Done tt).
Proof.
  intros H. unfold execute. rewrite (unsubscribe_each_ok l H).
  unfold emitResult. destruct (output_isJson env); reflexivity.
Qed.

Lemma execute_stops (done rest : list string) (bad : string) (e : exn) :
  (forall x, In x done -> bento_unsubscribe env x = None) ->
  bento_unsubscribe env bad = Some e ->
  execute env (done ++ bad :: rest)%list
  = (map EvUnsubscribe (done ++ [bad])%list, Throw e).
Proof.
  intros Hok Hbad. unfold execute.
  now rewrite (unsubscribe_each_stops done rest bad e Hok Hbad).
Qed.

(** Target resolution reads at most the one file and calls nothing
    remote; it never ends the process itself. *)
Lemma resolveEmailTargets_quiet (e f : option string) :
  (trace (resolveEmailTargets env e f) = []
   \/ trace (resolveEmailTargets env e f) = [EvReadFile (flag_value f)])
  /\ (forall c, result (resolveEmailTargets env e f) <> Exit c).
Proof.
  unfold resolveEmailTargets.
  destruct (truthy e).
  { destruct (isValidEmail env (flag_value e)); split; auto; discriminate. }
  destruct (truthy f); [|split; auto; discriminate].
  cbn [emit bind]. destruct (fs_readFile env (flag_value f)); split; auto; discriminate.
Qed.

Lemma resolveEmailTargets_no_remote (e f : option string) (ev : event) :
  In ev (trace (resolveEmailTargets env e f)) -> is_remote ev = false.
Proof.
  destruct (resolveEmailTargets_quiet e f) as [[-> | ->] _].
  - intros [].
  - intros [<- | []]. reflexivity.
Qed.

(** The command, once the resolver's run is known. *)
Lemma action_no_targets (opts : UnsubscribeOptions) (t : list event) :
  resolveEmailTargets env (email opts) (file opts) = (t, Done None) ->
  unsubscribeAction env opts = ((t ++ [EvOutError USAGE])%list, Exit 2).
Proof. intros H. unfold unsubscribeAction. rewrite H. reflexivity. Qed.

Lemma action_resolution_fails (opts : UnsubscribeOptions) (t : list event) (e : exn) :
  resolveEmailTargets env (email opts) (file opts) = (t, Throw e) ->
  unsubscribeAction env opts = ((t ++ [EvOutError (exn_message e)])%list, Exit 1).
Proof. intros H. unfold unsubscribeAction. rewrite H. reflexivity. Qed.

Lemma action_rejected_rows (opts : UnsubscribeOptions) (t : list event)
    (targets : EmailTargets) :
  resolveEmailTargets env (email opts) (file opts) = (t, Done (Some targets)) ->
  errors targets <> [] ->
  unsubscribeAction env opts
  = ((t ++ [EvPrintCsvErrors (errors targets)])%list, Exit 6).
Proof.
  intros H Herr. unfold unsubscribeAction. rewrite H. cbn [bind].
  destruct (errors targets) as [|r rs]; [contradiction|]. reflexivity.
Qed.

Lemma action_bad_flags (opts : UnsubscribeOptions) (t : list event)
    (targets : EmailTargets) (e : exn) :
  resolveEmailTargets env (email opts) (file opts) = (t, Done (Some targets)) ->
  errors targets = [] ->
  parseOptions (safety_flags opts) = throw e ->
  unsubscribeAction env opts = ((t ++ [EvOutError (exn_message e)])%list, Exit 1).
Proof.
  intros H Herr Hp. unfold unsubscribeAction. rewrite H. cbn [bind].
  rewrite Herr, Hp. cbn. now rewrite app_nil_r.
Qed.

Lemma action_protected (opts : UnsubscribeOptions) (t : list event)
    (targets : EmailTargets) (o : SafetyOptions) :
  resolveEmailTargets env (email opts) (file opts) = (t, Done (Some targets)) ->
  errors targets = [] ->
  parseOptions (safety_flags opts) = ret o ->
  unsubscribeAction env opts
  = finish t (protect env (operation env (emails targets)) o).
Proof.
  intros H Herr Hp. unfold unsubscribeAction. rewrite H. cbn [bind].
  rewrite Herr, Hp.
  cbn [length Nat.ltb Nat.leb]. rewrite !MonadFacts.bind_ret.
  destruct (protect env (operation env (emails targets)) o) as [tp [x|e|c]];
    cbn; rewrite ?app_nil_r, <- ?app_assoc; reflexivity.
Qed.

Lemma protect_unattended_confirmed (l : list string) (o : SafetyOptions) :
  reduce env l o <> [] ->
  Safety.dryRun o = false -> Safety.confirm o = true ->
  protect env (operation env l) o
  = (r <- execute env (reduce env l o) ;; ret (Executed r)).
Proof.
  intros Hne Hd Hc.
  rewrite (SafetyFacts.protect_nonempty env (operation env l) o Hne).
  cbn. rewrite Hd, Hc. reflexivity.
Qed.

End WithEnv.

Lemma parseOptions_plain (opts : UnsubscribeOptions) :
  Unsubscribe.limit opts = None -> Unsubscribe.sample opts = None ->
  parseOptions (safety_flags opts)
  = ret (mkSafetyOptions (flag_set (Unsubscribe.dryRun opts)) None None
           (flag_set (Unsubscribe.confirm opts))).
Proof.
  intros Hl Hs. unfold parseOptions, safety_flags. cbn. now rewrite Hl, Hs.
Qed.

(** C1 (as amended).  When the remote call fails on a target, the
    targets before it have been attempted in order, the targets after it
    are not attempted, no summary is emitted, and the failure reaches the
    command's handler, which prints its message and exits 1. *)
Theorem failed_call_stops_the_batch (env : Env) (done rest : list string)
    (bad : string) (e : exn) :
  (forall x, In x done -> bento_unsubscribe env x = None) ->
  bento_unsubscribe env bad = Some e ->
  execute env (done ++ bad :: rest)%list
    = (map EvUnsubscribe (done ++ [bad])%list, Throw e)
  /\ forall (opts : UnsubscribeOptions) (t : list event),
      resolveEmailTargets env (email opts) (file opts)
        = (t, Done (Some (mkTargets (done ++ bad :: rest)%list []))) ->
      Unsubscribe.limit opts = None -> Unsubscribe.sample opts = None ->
      flag_set (Unsubscribe.dryRun opts) = false ->
      flag_set (Unsubscribe.confirm opts) = true ->
      unsubscribeAction env opts
      = ((t ++ map EvUnsubscribe (done ++ [bad]) ++ [EvOutError (exn_message e)])%list,
         Exit 1).
Proof.
  intros Hok Hbad. split; [now apply execute_stops|].
  intros opts t Hres Hl Hs Hd Hc.
  rewrite (action_protected env opts t _ _ Hres eq_refl (parseOptions_plain opts Hl Hs)).
  rewrite Hd, Hc. cbn [emails].
  rewrite protect_unattended_confirmed; try reflexivity.
  - cbn [reduce Safety.limit Safety.sample].
    rewrite (execute_stops env done rest bad e Hok Hbad). reflexivity.
  - cbn [reduce Safety.limit Safety.sample]. now destruct done.
Qed.

Lemma failed_call_stops_the_batch_witness :
  execute Demo.batch ["a@x.com"; "b@x.com"; "c@x.com"; "d@x.com"; "e@x.com"]
  = ([EvUnsubscribe "a@x.com"; EvUnsubscribe "b@x.com"; EvUnsubscribe "c@x.com"],
     Throw (CLIErr "Subscriber not found" "API_ERROR" 404)).
Proof.
  apply (failed_call_stops_the_batch Demo.batch ["a@x.com"; "b@x.com"]
           ["d@x.com"; "e@x.com"] "c@x.com"
           (CLIErr "Subscriber not found" "API_ERROR" 404)).
  - intros x [<- | [<- | []]]; reflexivity.
  - reflexivity.
Defined.

(** C1 (as stated) fails: with five targets and a remote failure on the
    third, the fourth and fifth are never attempted and no count of
    successes is reported. *)
Lemma later_targets_not_attempted :
  execute Demo.batch ["a@x.com"; "b@x.com"; "c@x.com"; "d@x.com"; "e@x.com"]
  = ([EvUnsubscribe "a@x.com"; EvUnsubscribe "b@x.com"; EvUnsubscribe "c@x.com"],
     Throw (CLIErr "Subscriber not found" "API_ERROR" 404))
  /\ unsubscribeAction Demo.batch
    (mkOptions None (Some "list.csv") None None None (Some true))
  = ([EvReadFile "list.csv";
      EvUnsubscribe "a@x.com"; EvUnsubscribe "b@x.com"; EvUnsubscribe "c@x.com";
      EvOutError "Subscriber not found"], Exit 1)
  /\ ~ In (EvUnsubscribe "d@x.com")
        (trace (unsubscribeAction Demo.batch
                  (mkOptions None (Some "list.csv") None None None (Some true))))
  /\ ~ In (EvUnsubscribe "e@x.com")
        (trace (unsubscribeAction Demo.batch
                  (mkOptions None (Some "list.csv") None None None (Some true)))).
Proof.
  split; [reflexivity|]. split; [reflexivity|].
  split; cbn; intros H; repeat (destruct H as [H | H]; [discriminate|]); exact H.
Qed.

(** What the command does when both reducers are given, whatever the
    resolver did: one more event, not a remote one, and the process
    exits. *)
Lemma action_with_conflict (env : Env) (opts : UnsubscribeOptions) (l s : string) :
  Unsubscribe.limit opts = Some l -> Unsubscribe.sample opts = Some s ->
  exists ev c,
    unsubscribeAction env opts
    = ((trace (resolveEmailTargets env (email opts) (file opts)) ++ [ev])%list, Exit c)
    /\ is_remote ev = false.
Proof.
  intros Hl Hs.
  assert (Hp : parseOptions (safety_flags opts) = throw (CLIErr LIMIT_SAMPLE_CONFLICT
                                                          "VALIDATION_ERROR" 422)).
  { unfold parseOptions, safety_flags. cbn. now rewrite Hl, Hs. }
  destruct (resolveEmailTargets_quiet env (email opts) (file opts)) as [_ Hexit].
  destruct (resolveEmailTargets env (email opts) (file opts)) as [t [[targets|]|e|c]] eqn:H.
  - destruct (errors targets) as [|r rs] eqn:Herr.
    + rewrite (action_bad_flags env opts t targets _ H Herr Hp). eauto.
    + rewrite (action_rejected_rows env opts t targets H) by (rewrite Herr; discriminate).
      eauto.
  - rewrite (action_no_targets env opts t H). eauto.
  - rewrite (action_resolution_fails env opts t e H). eauto.
  - exfalso. exact (Hexit c eq_refl).
Qed.

(** C2 (as amended).  With both [--limit] and [--sample] the option
    parser raises a configuration error without any effect of its own,
    and the execution callback is never invoked; but the command resolves
    its targets first, so a [--file] has been read by then: on a clean
    target set the run is the resolver's events, the error report, and
    exit 1. *)
Theorem limit_and_sample_conflict (env : Env) (opts : UnsubscribeOptions)
    (l s : string) :
  Unsubscribe.limit opts = Some l ->
  Unsubscribe.sample opts = Some s ->
  parseOptions (safety_flags opts) = config_error LIMIT_SAMPLE_CONFLICT
  /\ no_remote (unsubscribeAction env opts)
  /\ forall (t : list event) (targets : EmailTargets),
      resolveEmailTargets env (email opts) (file opts) = (t, Done (Some targets)) ->
      errors targets = [] ->
      unsubscribeAction env opts
      = ((t ++ [EvOutError LIMIT_SAMPLE_CONFLICT])%list, Exit 1).
Proof.
  intros Hl Hs.
  assert (Hp : parseOptions (safety_flags opts) = config_error LIMIT_SAMPLE_CONFLICT).
  { unfold parseOptions, safety_flags. cbn. now rewrite Hl, Hs. }
  split; [exact Hp|]. split.
  - destruct (action_with_conflict env opts l s Hl Hs) as (ev & c & Hrun & Hev).
    apply (MonadFacts.no_remote_snoc _ _ ev (f_equal fst Hrun)); [|exact Hev].
    apply resolveEmailTargets_no_remote.
  - intros t targets H Herr.
    exact (action_bad_flags env opts t targets _ H Herr Hp).
Qed.

Lemma limit_and_sample_conflict_witness :
  no_remote (unsubscribeAction Demo.batch
               (mkOptions None (Some "list.csv") None (Some "5") (Some "5") (Some true))).
Proof.
  apply (limit_and_sample_conflict Demo.batch
           (mkOptions None (Some "list.csv") None (Some "5") (Some "5") (Some true))
           "5" "5"); reflexivity.
Defined.

(** C2 (as stated) fails: the target file is read before the conflict
    between the two flags is reported. *)
Lemma file_read_before_conflict :
  unsubscribeAction Demo.batch
    (mkOptions None (Some "list.csv") None (Some "5") (Some "5") None)
  = ([EvReadFile "list.csv"; EvOutError LIMIT_SAMPLE_CONFLICT], Exit 1)
  /\ ~ no_read (unsubscribeAction Demo.batch
                  (mkOptions None (Some "list.csv") None (Some "5") (Some "5") None)).
Proof.
  split; [reflexivity|].
  intros H. specialize (H (EvReadFile "list.csv") (or_introl eq_refl)). discriminate.
Qed.

(** C5.  When target resolution yields any rejected row, the command
    reports all of them, exits with code 6, and stops there: the
    executor is not reached and no remote call is made. *)
Theorem rejected_rows_stop_the_command (env : Env) (opts : UnsubscribeOptions)
    (t : list event) (targets : EmailTargets) :
  resolveEmailTargets env (email opts) (file opts) = (t, Done (Some targets)) ->
  errors targets <> [] ->
  unsubscribeAction env opts = ((t ++ [EvPrintCsvErrors (errors targets)])%list, Exit 6)
  /\ exit_code (unsubscribeAction env opts) = 6
  /\ no_remote (unsubscribeAction env opts).
Proof.
  intros H Herr. pose proof (action_rejected_rows env opts t targets H Herr) as Hrun.
  split; [exact Hrun|]. split; [now rewrite Hrun|].
  apply (MonadFacts.no_remote_snoc _ _ _ (f_equal fst Hrun)); [|reflexivity].
  intros e. rewrite <- (f_equal fst H : trace _ = t).
  apply resolveEmailTargets_no_remote.
Qed.

Lemma rejected_rows_stop_the_command_witness :
  unsubscribeAction Demo.batch
    (mkOptions None (Some "bad.csv") None None None (Some true))
  = ([EvReadFile "bad.csv";
      EvPrintCsvErrors [(2, "not-an-email", INVALID_EMAIL)]], Exit 6).
Proof.
  apply (rejected_rows_stop_the_command Demo.batch
           (mkOptions None (Some "bad.csv") None None None (Some true))
           [EvReadFile "bad.csv"]
           (mkTargets ["a@x.com"; "b@x.com"] [(2, "not-an-email", INVALID_EMAIL)])).
  - reflexivity.
  - discriminate.
Defined.

(** C6.  When neither [--email] nor [--file] is meaningfully provided,
    target resolution yields nothing rather than an empty set, and the
    command reports a usage error and exits with code 2. *)
Theorem no_target_selection (env : Env) (opts : UnsubscribeOptions) :
  truthy (email opts) = false ->
  truthy (file opts) = false ->
  resolveEmailTargets env (email opts) (file opts) = ret None
  /\ unsubscribeAction env opts = ([EvOutError USAGE], Exit 2)
  /\ exit_code (unsubscribeAction env opts) = 2.
Proof.
  intros He Hf.
  assert (H : resolveEmailTargets env (email opts) (file opts) = ret None).
  { unfold resolveEmailTargets. now rewrite He, Hf. }
  pose proof (action_no_targets env opts [] H) as Hrun.
  split; [exact H|]. rewrite Hrun. split; reflexivity.
Qed.

Lemma no_target_selection_witness :
  unsubscribeAction Demo.batch (mkOptions (Some "") (Some "") None None None None)
  = ([EvOutError USAGE], Exit 2).
Proof.
  apply (no_target_selection Demo.batch
           (mkOptions (Some "") (Some "") None None None None)); reflexivity.
Defined.

(** C8.  In machine-readable mode a successful execution emits one
    envelope with exactly the keys success, error, data, meta: success
    is true, error is null, data holds the count of updated targets and
    the action name, and meta holds the target count. *)
Theorem success_envelope (env : Env) (emails : list string) :
  output_isJson env = true ->
  (forall x, In x emails -> bento_unsubscribe env x = None) ->
  exists payload,
    execute env emails = ((map EvUnsubscribe emails ++ [EvOutJson payload])%list, Done tt)
    /\ emitResult env (length emails) = ([EvOutJson payload], Done tt)
    /\ json_keys payload = ["success"; "error"; "data"; "meta"]
    /\ json_field "success" payload = Some (JBool true)
    /\ json_field "error" payload = Some JNull
    /\ json_field "data" payload
       = Some (JObj [("updated", JNum (length emails)); ("action", JStr "unsubscribe")])
    /\ json_field "meta" payload = Some (JObj [("count", JNum (length emails))]).
Proof.
  intros Hjson Hok.
  pose proof (execute_ok env emails Hok) as Hrun.
  unfold emitResult in *. rewrite Hjson in *. cbn [trace fst emit] in Hrun.
  eexists. split; [exact Hrun|]. repeat split.
Qed.

Lemma success_envelope_witness :
  exists payload,
    execute Demo.batch ["a@x.com"; "b@x.com"]
    = ([EvUnsubscribe "a@x.com"; EvUnsubscribe "b@x.com"; EvOutJson payload], Done tt)
    /\ json_field "data" payload
       = Some (JObj [("updated", JNum 2); ("action", JStr "unsubscribe")]).
Proof.
  destruct (success_envelope Demo.batch ["a@x.com"; "b@x.com"]) as (payload & H1 & _ & _ & _ & _ & H2 & _).
  - reflexivity.
  - intros x [<- | [<- | []]]; reflexivity.
  - exists payload. split; [exact H1 | exact H2].
Defined.

(** C3.  On a non-empty target sequence, whatever [isDangerous],
    [confirm], [limit] and [sample] are, a dry run ends in Previewed with
    the formatted working set and its count; the result does not depend
    on the execution callback, which is never invoked.  For the
    unsubscribe command that is the resolver's events followed by the
    preview, and exit 0. *)
Theorem dry_run_never_executes (env : Env) {T R : Type} (spec : OperationSpec T R)
    (o : SafetyOptions) :
  items spec <> [] ->
  positive_counts o ->
  Safety.dryRun o = true ->
  reduce env (items spec) o <> []
  /\ protect env spec o
     = ([EvPreview (name spec) (length (reduce env (items spec) o))
           (map (formatItem spec) (reduce env (items spec) o))],
        Done (Previewed (map (formatItem spec) (reduce env (items spec) o))
                (length (reduce env (items spec) o))))
  /\ forall (opts : UnsubscribeOptions) (t : list event) (targets : EmailTargets),
      resolveEmailTargets env (email opts) (file opts) = (t, Done (Some targets)) ->
      errors targets = [] -> emails targets <> [] ->
      parseOptions (safety_flags opts) = ret o ->
      unsubscribeAction env opts
      = ((t ++ [EvPreview "Unsubscribe Subscribers"
                  (length (reduce env (emails targets) o))
                  (map (fun email => JObj [("email", JStr email)])
                     (reduce env (emails targets) o))])%list, Done tt)
      /\ no_remote (unsubscribeAction env opts)
      /\ exit_code (unsubscribeAction env opts) = 0.
Proof.
  intros Hne Hpos Hdry.
  assert (Hgen : forall (T' R' : Type) (sp : OperationSpec T' R'),
             items sp <> [] ->
             protect env sp o
             = ([EvPreview (name sp) (length (reduce env (items sp) o))
                   (map (formatItem sp) (reduce env (items sp) o))],
                Done (Previewed (map (formatItem sp) (reduce env (items sp) o))
                        (length (reduce env (items sp) o))))).
  { intros T' R' sp Hsp.
    rewrite (SafetyFacts.protect_nonempty env sp o
               (SafetyFacts.reduce_nonempty env _ o Hsp Hpos)).
    cbn zeta. now rewrite Hdry. }
  split; [now apply SafetyFacts.reduce_nonempty|].
  split; [now apply Hgen|].
  intros opts t targets Hres Herr Hem Hp.
  pose proof (action_protected env opts t targets o Hres Herr Hp) as Hrun.
  rewrite (Hgen _ _ (operation env (emails targets)) Hem) in Hrun.
  cbn [finish operation name items formatItem] in Hrun.
  split; [exact Hrun|]. split; [|now rewrite Hrun].
  apply (MonadFacts.no_remote_snoc _ _ _ (f_equal fst Hrun)); [|reflexivity].
  intros e. rewrite <- (f_equal fst Hres : trace _ = t).
  apply resolveEmailTargets_no_remote.
Qed.

Lemma dry_run_never_executes_witness :
  protect Demo.batch
    (operation Demo.batch ["a@x.com"; "b@x.com"; "c@x.com"])
    (mkSafetyOptions true (Some 2) None true)
  = ([EvPreview "Unsubscribe Subscribers" 2
        [JObj [("email", JStr "a@x.com")]; JObj [("email", JStr "b@x.com")]]],
     Done (Previewed
             [JObj [("email", JStr "a@x.com")]; JObj [("email", JStr "b@x.com")]] 2)).
Proof.
  apply (dry_run_never_executes Demo.batch
           (operation Demo.batch ["a@x.com"; "b@x.com"; "c@x.com"])
           (mkSafetyOptions true (Some 2) None true)).
  - discriminate.
  - split; cbn; intros k [= <-]. lia.
  - reflexivity.
Defined.

(** C4 (as amended).  A dangerous operation without [--confirm] in a
    process without a terminal never invokes the execution callback,
    and what it does is decided by the working set and [dryRun]: an
    empty working set ends Empty, whatever [dryRun] is, with exit 0; a
    non-empty one under [dryRun] ends Previewed with exit 0; a non-empty
    one without [dryRun] is rejected, the executor raising
    ConfirmationRejected and the command reporting it with exit 1.  An
    interactive decline instead ends Aborted and the command exits 0. *)
Theorem unattended_dangerous_run_rejected (env : Env) {T R : Type}
    (spec : OperationSpec T R) (o : SafetyOptions) :
  isDangerous spec = true ->
  Safety.confirm o = false ->
  (reduce env (items spec) o = [] ->
     protect env spec o = ([EvOutInfo "No items to process."], Done Empty))
  /\ (reduce env (items spec) o <> [] -> Safety.dryRun o = true ->
      protect env spec o
      = ([EvPreview (name spec) (length (reduce env (items spec) o))
            (map (formatItem spec) (reduce env (items spec) o))],
         Done (Previewed (map (formatItem spec) (reduce env (items spec) o))
                 (length (reduce env (items spec) o)))))
  /\ (reduce env (items spec) o <> [] -> Safety.dryRun o = false ->
      (stdin_isTTY env = false -> protect env spec o = throw ConfirmationRejected)
      /\ (stdin_isTTY env = true -> prompt_answer env = false ->
          protect env spec o
          = ([EvPrompt (name spec) (length (reduce env (items spec) o))
                (firstn PREVIEW_SAMPLE
                   (map (formatItem spec) (reduce env (items spec) o)))],
             Done Aborted)))
  /\ forall (opts : UnsubscribeOptions) (t : list event) (targets : EmailTargets),
      resolveEmailTargets env (email opts) (file opts) = (t, Done (Some targets)) ->
      errors targets = [] ->
      parseOptions (safety_flags opts) = ret o ->
      (stdin_isTTY env = false -> no_remote (unsubscribeAction env opts))
      /\ (reduce env (emails targets) o = [] ->
          unsubscribeAction env opts
          = ((t ++ [EvOutInfo "No items to process."])%list, Done tt)
          /\ exit_code (unsubscribeAction env opts) = 0)
      /\ (reduce env (emails targets) o <> [] -> Safety.dryRun o = true ->
          unsubscribeAction env opts
          = ((t ++ [EvPreview "Unsubscribe Subscribers"
                      (length (reduce env (emails targets) o))
                      (map (fun email => JObj [("email", JStr email)])
                         (reduce env (emails targets) o))])%list, Done tt)
          /\ exit_code (unsubscribeAction env opts) = 0)
      /\ (reduce env (emails targets) o <> [] -> Safety.dryRun o = false ->
          (stdin_isTTY env = false ->
             unsubscribeAction env opts
             = ((t ++ [EvOutError (exn_message ConfirmationRejected)])%list, Exit 1)
             /\ exit_code (unsubscribeAction env opts) = 1)
          /\ (stdin_isTTY env = true -> prompt_answer env = false ->
              unsubscribeAction env opts
              = ((t ++ [EvPrompt "Unsubscribe Subscribers"
                          (length (reduce env (emails targets) o))
                          (firstn PREVIEW_SAMPLE
                             (map (fun email => JObj [("email", JStr email)])
                                (reduce env (emails targets) o)))])%list, Done tt)
              /\ exit_code (unsubscribeAction env opts) = 0)).
Proof.
  intros Hdanger Hconf.
  assert (Hempty : forall (T' R' : Type) (sp : OperationSpec T' R'),
             reduce env (items sp) o = [] ->
             protect env sp o = ([EvOutInfo "No items to process."], Done Empty)).
  { intros T' R' sp Hw. unfold protect. now rewrite Hw. }
  assert (Hdry : forall (T' R' : Type) (sp : OperationSpec T' R'),
             reduce env (items sp) o <> [] -> Safety.dryRun o = true ->
             protect env sp o
             = ([EvPreview (name sp) (length (reduce env (items sp) o))
                   (map (formatItem sp) (reduce env (items sp) o))],
                Done (Previewed (map (formatItem sp) (reduce env (items sp) o))
                        (length (reduce env (items sp) o))))).
  { intros T' R' sp Hne Hd.
    rewrite (SafetyFacts.protect_nonempty env sp o Hne). cbn zeta. now rewrite Hd. }
  assert (Hgate : forall (T' R' : Type) (sp : OperationSpec T' R'),
             isDangerous sp = true ->
             reduce env (items sp) o <> [] -> Safety.dryRun o = false ->
             (stdin_isTTY env = false -> protect env sp o = throw ConfirmationRejected)
             /\ (stdin_isTTY env = true -> prompt_answer env = false ->
                 protect env sp o
                 = ([EvPrompt (name sp) (length (reduce env (items sp) o))
                       (firstn PREVIEW_SAMPLE
                          (map (formatItem sp) (reduce env (items sp) o)))],
                    Done Aborted))).
  { intros T' R' sp Hd Hne Hdry'.
    rewrite (SafetyFacts.protect_nonempty env sp o Hne). cbn zeta.
    rewrite Hdry', Hd, Hconf. cbn [negb orb].
    split; [intros -> | intros -> ->]; reflexivity. }
  split; [now apply Hempty|]. split; [now apply Hdry|]. split; [now apply Hgate|].
  intros opts t targets Hres Herr Hp.
  pose proof (action_protected env opts t targets o Hres Herr Hp) as Hrun.
  assert (Hquiet : forall e, In e t -> is_remote e = false).
  { intros e. rewrite <- (f_equal fst Hres : trace _ = t).
    apply resolveEmailTargets_no_remote. }
  assert (Hcase_empty : reduce env (emails targets) o = [] ->
            unsubscribeAction env opts
            = ((t ++ [EvOutInfo "No items to process."])%list, Done tt)).
  { intros Hw. rewrite Hrun, (Hempty _ _ (operation env (emails targets)) Hw).
    reflexivity. }
  assert (Hcase_dry : reduce env (emails targets) o <> [] -> Safety.dryRun o = true ->
            unsubscribeAction env opts
            = ((t ++ [EvPreview "Unsubscribe Subscribers"
                        (length (reduce env (emails targets) o))
                        (map (fun email => JObj [("email", JStr email)])
                           (reduce env (emails targets) o))])%list, Done tt)).
  { intros Hne Hd. rewrite Hrun, (Hdry _ _ (operation env (emails targets)) Hne Hd).
    reflexivity. }
  assert (Hcase_rej : reduce env (emails targets) o <> [] -> Safety.dryRun o = false ->
            stdin_isTTY env = false ->
            unsubscribeAction env opts
            = ((t ++ [EvOutError (exn_message ConfirmationRejected)])%list, Exit 1)).
  { intros Hne Hd Htty.
    destruct (Hgate _ _ (operation env (emails targets)) eq_refl Hne Hd) as [Hrej _].
    rewrite Hrun, (Hrej Htty). reflexivity. }
  split; [|split; [|split; [|intros Hne Hd; split]]].
  - intros Htty.
    destruct (reduce env (emails targets) o) as [|x w] eqn:Hw.
    + apply (MonadFacts.no_remote_snoc _ t (EvOutInfo "No items to process."));
        [now rewrite (Hcase_empty eq_refl) | exact Hquiet | reflexivity].
    + assert (Hne : x :: w <> []) by discriminate.
      destruct (Safety.dryRun o) eqn:Hd.
      * eapply (MonadFacts.no_remote_snoc _ t);
          [now rewrite (Hcase_dry Hne eq_refl) | exact Hquiet | reflexivity].
      * eapply (MonadFacts.no_remote_snoc _ t);
          [now rewrite (Hcase_rej Hne eq_refl Htty) | exact Hquiet | reflexivity].
  - intros Hw. split; [now apply Hcase_empty|]. now rewrite (Hcase_empty Hw).
  - intros Hne Hd. split; [now apply Hcase_dry|]. now rewrite (Hcase_dry Hne Hd).
  - intros Htty. split; [now apply Hcase_rej|]. now rewrite (Hcase_rej Hne Hd Htty).
  - intros Htty Hno.
    destruct (Hgate _ _ (operation env (emails targets)) eq_refl Hne Hd) as [_ Habort].
    rewrite Hrun, (Habort Htty Hno). split; reflexivity.
Qed.

Lemma unattended_dangerous_run_rejected_witness :
  unsubscribeAction Demo.batch
    (mkOptions None (Some "list.csv") None (Some "2") None None)
  = ([EvReadFile "list.csv"; EvOutError (exn_message ConfirmationRejected)], Exit 1).
Proof.
  destruct (unattended_dangerous_run_rejected Demo.batch
              (operation Demo.batch ["a@x.com"])
              (mkSafetyOptions false (Some 2) None false) eq_refl eq_refl)
    as (_ & _ & _ & H).
  destruct (H (mkOptions None (Some "list.csv") None (Some "2") None None)
              [EvReadFile "list.csv"]
              (mkTargets ["a@x.com"; "b@x.com"; "c@x.com"; "d@x.com"; "e@x.com"] [])
              eq_refl eq_refl eq_refl) as (_ & _ & _ & Hreject).
  destruct Hreject as [Hrej _]; [discriminate | reflexivity |].
  apply Hrej. reflexivity.
Defined.

Example empty_set_ends_empty :
  protect Demo.batch (operation Demo.batch []) (mkSafetyOptions true None None false)
  = ([EvOutInfo "No items to process."], Done Empty)
  /\ protect Demo.batch (operation Demo.batch []) (mkSafetyOptions false None None false)
     = ([EvOutInfo "No items to process."], Done Empty).
Proof. split; reflexivity. Qed.

(** C4 (as stated) fails: a dry run of the dangerous operation without
    [--confirm] and without a terminal ends Previewed and the command
    exits 0; ConfirmationRejected is not reported. *)
Lemma dry_run_previews_instead :
  isDangerous (operation Demo.batch ["a@x.com"]) = true
  /\ stdin_isTTY Demo.batch = false
  /\ parseOptions (safety_flags (mkOptions (Some "a@x.com") None (Some true) None None None))
     = ret (mkSafetyOptions true None None false)
  /\ unsubscribeAction Demo.batch
       (mkOptions (Some "a@x.com") None (Some true) None None None)
     = ([EvPreview "Unsubscribe Subscribers" 1 [JObj [("email", JStr "a@x.com")]]],
        Done tt)
  /\ exit_code (unsubscribeAction Demo.batch
                  (mkOptions (Some "a@x.com") None (Some true) None None None)) = 0.
Proof. repeat split. Qed.

(** C7.  With [limit = k] and [k] at most the number of accepted
    targets, the working set is the first [k] targets in their original
    order, and that prefix is what the execution callback receives when
    the run reaches it, with or without a prompt. *)
Theorem limit_takes_stable_prefix (env : Env) {T R : Type} (spec : OperationSpec T R)
    (o : SafetyOptions) (k : nat) :
  Safety.limit o = Some k ->
  k <= length (items spec) ->
  reduce env (items spec) o = firstn k (items spec)
  /\ length (reduce env (items spec) o) = k
  /\ (0 < k -> Safety.dryRun o = false ->
      (negb (isDangerous spec) || Safety.confirm o = true ->
       protect env spec o
       = (r <- Safety.execute spec (firstn k (items spec)) ;; ret (Executed r)))
      /\ (negb (isDangerous spec) || Safety.confirm o = false ->
          stdin_isTTY env = true -> prompt_answer env = true ->
          protect env spec o
          = (emit (EvPrompt (name spec) k
                     (firstn PREVIEW_SAMPLE
                        (map (formatItem spec) (firstn k (items spec))))) ;;;
             r <- Safety.execute spec (firstn k (items spec)) ;; ret (Executed r)))).
Proof.
  intros Hl Hk.
  pose proof (SafetyFacts.reduce_limit env (items spec) o k Hl) as Hred.
  assert (Hlen : length (reduce env (items spec) o) = k).
  { rewrite Hred. apply firstn_length_le. exact Hk. }
  split; [exact Hred|]. split; [exact Hlen|].
  intros Hpos Hdry.
  assert (Hne : reduce env (items spec) o <> []).
  { intros E. rewrite E in Hlen. cbn in Hlen. lia. }
  rewrite (SafetyFacts.protect_nonempty env spec o Hne). cbn zeta.
  rewrite Hdry, Hlen, Hred.
  split; [intros -> | intros -> -> ->]; reflexivity.
Qed.

Lemma limit_takes_stable_prefix_witness :
  reduce Demo.batch ["a@x.com"; "b@x.com"; "c@x.com"; "d@x.com"; "e@x.com"]
    (mkSafetyOptions false (Some 2) None true)
  = ["a@x.com"; "b@x.com"].
Proof.
  apply (limit_takes_stable_prefix Demo.batch
           (operation Demo.batch ["a@x.com"; "b@x.com"; "c@x.com"; "d@x.com"; "e@x.com"])
           (mkSafetyOptions false (Some 2) None true) 2).
  - reflexivity.
  - cbn. lia.
Defined.

Example limit_two_runs_the_first_two :
  unsubscribeAction Demo.batch
    (mkOptions None (Some "list.csv") None (Some "2") None (Some true))
  = ([EvReadFile "list.csv"; EvUnsubscribe "a@x.com"; EvUnsubscribe "b@x.com";
      EvOutJson
        (JObj [("success", JBool true); ("error", JNull);
               ("data", JObj [("updated", JNum 2); ("action", JStr "unsubscribe")]);
               ("meta", JObj [("count", JNum 2)])])], Done tt).
Proof. reflexivity. Qed.

End UnsubscribeFacts.

(** * Sequence emails: validation of what reaches the API *)

Module SequencesMore.

Import Sequences Calls.

Lemma digits_value_acc (s : string) (acc : N) :
  digits_value s acc
  = (acc * 10 ^ N.of_nat (String.length s) + digits_value s 0)%N.
Proof.
  revert acc. induction s as [|c s IH]; intros acc.
  - cbn. lia.
  - cbn [digits_value String.length]. rewrite Nat2N.inj_succ, N.pow_succ_r'.
    rewrite (IH (10 * acc + _)%N), (IH (10 * 0 + _)%N). lia.
Qed.

Lemma is_digit_value (c : ascii) :
  is_digit c = true -> (N.of_nat (nat_of_ascii c - 48) <= 9)%N.
Proof.
  unfold is_digit, in_range. intros H. apply andb_prop in H as [H1 H2].
  apply Nat.leb_le in H1, H2. lia.
Qed.

Lemma nonzero_digit_value (c : ascii) :
  is_digit c = true -> Ascii.eqb c "0"%char = false ->
  (1 <= N.of_nat (nat_of_ascii c - 48))%N.
Proof.
  unfold is_digit, in_range. intros H Hz. apply andb_prop in H as [H1 H2].
  apply Nat.leb_le in H1, H2.
  assert (nat_of_ascii c <> 48).
  { intros E. apply Ascii.eqb_neq in Hz. apply Hz.
    rewrite <- (ascii_nat_embedding c), E. reflexivity. }
  lia.
Qed.

Lemma digits_value_upper (s : string) :
  all_chars is_digit s = true ->
  (digits_value s 0 < 10 ^ N.of_nat (String.length s))%N.
Proof.
  induction s as [|c s IH]; intros H.
  - cbn. lia.
  - cbn [all_chars] in H. apply andb_prop in H as [Hc Hs].
    cbn [digits_value String.length]. rewrite Nat2N.inj_succ, N.pow_succ_r'.
    rewrite digits_value_acc. specialize (IH Hs).
    pose proof (is_digit_value c Hc). nia.
Qed.

Lemma digits_value_lower (c : ascii) (s : string) :
  is_digit c = true -> Ascii.eqb c "0"%char = false ->
  (10 ^ N.of_nat (String.length s) <= digits_value (String c s) 0)%N.
Proof.
  intros Hc Hz. cbn [digits_value]. rewrite digits_value_acc.
  pose proof (nonzero_digit_value c Hc Hz). nia.
Qed.

Lemma pos_odd_part_le (p : positive) : (pos_odd_part p <= p)%positive.
Proof.
  induction p as [p IH|p IH|]; cbn; try lia.
Qed.

Lemma prints_back_small (n : N) : (n <= 999)%N -> prints_back n = true.
Proof.
  intros H. destruct n as [|p]; [reflexivity|]. cbn [prints_back].
  apply andb_true_intro. split; apply N.ltb_lt.
  - pose proof (pos_odd_part_le p).
    assert (H53 : (1000 <= 2 ^ 53)%N) by (vm_compute; discriminate). lia.
  - assert (H21 : (1000 <= 10 ^ 21)%N) by (vm_compute; discriminate). lia.
Qed.

Lemma small_count_accepted (s : string) :
  small_count s = true ->
  parse_positive_roundtrip s = Some (digits_value s 0)
  /\ (1 <= digits_value s 0 <= 999)%N.
Proof.
  destruct s as [|c s]; [discriminate|]. unfold small_count.
  intros H. apply andb_prop in H as [H Hlen]. apply andb_prop in H as [Hall Hz].
  apply Nat.leb_le in Hlen. apply negb_true_iff in Hz.
  assert (Hc : is_digit c = true) by (cbn in Hall; now apply andb_prop in Hall).
  pose proof (digits_value_upper _ Hall) as Hup.
  pose proof (digits_value_lower c s Hc Hz) as Hlo.
  assert (H10 : (10 ^ N.of_nat (String.length (String c s)) <= 10 ^ 3)%N).
  { apply N.pow_le_mono_r; lia. }
  assert (Hpos : (1 <= 10 ^ N.of_nat (String.length s))%N).
  { pose proof (N.pow_nonzero 10 (N.of_nat (String.length s))). lia. }
  assert (Hrange : (1 <= digits_value (String c s) 0 <= 999)%N).
  { change (10 ^ 3)%N with 1000%N in H10. lia. }
  split; [|exact Hrange].
  unfold parse_positive_roundtrip. rewrite Hall, Hz, prints_back_small by lia.
  reflexivity.
Qed.

Lemma accepted_is_small_count (s : string) (n : N) :
  parse_positive_roundtrip s = Some n -> (n <= 999)%N -> small_count s = true.
Proof.
  destruct s as [|c s]; [discriminate|]. unfold parse_positive_roundtrip, small_count.
  destruct (all_chars is_digit (String c s)) eqn:Hall; [|discriminate].
  destruct (Ascii.eqb c "0"%char) eqn:Hz; [discriminate|].
  destruct (prints_back (digits_value (String c s) 0)); [|discriminate].
  cbn [negb andb]. intros [= <-] Hn. apply Nat.leb_le.
  assert (Hc : is_digit c = true) by (cbn in Hall; now apply andb_prop in Hall).
  pose proof (digits_value_lower c s Hc Hz) as Hlo.
  destruct (Nat.le_gt_cases (String.length (String c s)) 3) as [|Hlong]; [assumption|].
  exfalso. cbn [String.length] in Hlong.
  assert (H10 : (10 ^ 3 <= 10 ^ N.of_nat (String.length s))%N).
  { apply N.pow_le_mono_r; lia. }
  change (10 ^ 3)%N with 1000%N in H10.
  change (digits_value (String c s) 0 <= 999)%N in Hn. lia.
Qed.

Lemma small_count_truthy (c : option string) :
  small_count (flag_value c) = true -> truthy c = true.
Proof.
  destruct c as [[|a s]|]; cbn; try discriminate; trivial.
Qed.

(** [validateDelayOptions] is pure and fails only with a validation
    error. *)
Lemma delay_options_pure (interval count : option string) :
  validateDelayOptions interval count = ret tt
  \/ exists msg, validateDelayOptions interval count = validation_error msg.
Proof.
  unfold validateDelayOptions.
  destruct (truthy interval), (truthy count); cbn [negb andb orb];
    try (right; eexists; reflexivity); [|left; reflexivity].
  rewrite MonadFacts.bind_ret.
  destruct (existsb (String.eqb (flag_value interval)) ALLOWED_DELAY_INTERVALS);
    cbn [negb andb]; [|right; eexists; reflexivity].
  rewrite MonadFacts.bind_ret.
  destruct (parse_positive_roundtrip (flag_value count)) as [n|];
    [|right; eexists; reflexivity].
  destruct (MAX_DELAY_COUNT <? n)%N; [right; eexists; reflexivity | left; reflexivity].
Qed.

Lemma roundtrip_positive (s : string) (n : N) :
  parse_positive_roundtrip s = Some n -> (1 <= n)%N.
Proof.
  destruct s as [|c s]; [discriminate|]. unfold parse_positive_roundtrip.
  destruct (all_chars is_digit (String c s)) eqn:Hall; [|discriminate].
  destruct (Ascii.eqb c "0"%char) eqn:Hz; [discriminate|].
  destruct (prints_back (digits_value (String c s) 0)); [|discriminate].
  cbn [negb andb]. intros H.
  assert (Hn : n = digits_value (String c s) 0) by (injection H; auto).
  assert (Hc : is_digit c = true) by (cbn in Hall; now apply andb_prop in Hall).
  pose proof (digits_value_lower c s Hc Hz) as Hlo.
  pose proof (N.pow_nonzero 10 (N.of_nat (String.length s))). lia.
Qed.

(** X1.  [validateDelayOptions] has no effect and fails only with a
    validation error.  It accepts exactly two shapes of input: neither
    flag set, or an interval from the allowed list together with a count
    written as one to three decimal digits without a leading zero (1 to
    999). *)
Theorem delay_options_accepted (interval count : option string) :
  (validateDelayOptions interval count = ret tt
   \/ exists msg, validateDelayOptions interval count = validation_error msg)
  /\ succeeded (validateDelayOptions interval count)
     = (negb (truthy interval) && negb (truthy count))
       || (existsb (String.eqb (flag_value interval)) ALLOWED_DELAY_INTERVALS
           && truthy interval && small_count (flag_value count)).
Proof.
  unfold validateDelayOptions.
  destruct (truthy interval) eqn:Hi, (truthy count) eqn:Hc; cbn [negb andb orb].
  - rewrite MonadFacts.bind_ret.
    destruct (existsb (String.eqb (flag_value interval)) ALLOWED_DELAY_INTERVALS) eqn:Hin;
      cbn [negb andb]; [|split; [right; eexists; reflexivity | reflexivity]].
    rewrite MonadFacts.bind_ret.
    destruct (parse_positive_roundtrip (flag_value count)) as [n|] eqn:Hp.
    + destruct (MAX_DELAY_COUNT <? n)%N eqn:Hmax.
      * split; [right; eexists; reflexivity|]. cbn.
        destruct (small_count (flag_value count)) eqn:Hs; [|reflexivity].
        destruct (small_count_accepted _ Hs) as [Hp' Hr]. rewrite Hp in Hp'.
        injection Hp' as ->. apply N.ltb_lt in Hmax. unfold MAX_DELAY_COUNT in Hmax. lia.
      * split; [left; reflexivity|]. cbn. symmetry.
        apply (accepted_is_small_count _ n Hp).
        apply N.ltb_ge in Hmax. exact Hmax.
    + split; [right; eexists; reflexivity|]. cbn.
      destruct (small_count (flag_value count)) eqn:Hs; [|reflexivity].
      destruct (small_count_accepted _ Hs) as [Hp' _]. congruence.
  - split; [right; eexists; reflexivity|]. cbn.
    destruct (small_count (flag_value count)) eqn:Hs; [|now rewrite andb_false_r].
    apply small_count_truthy in Hs. congruence.
  - split; [right; eexists; reflexivity|]. now rewrite andb_false_r.
  - split; [left; reflexivity | reflexivity].
Qed.

Lemma strip_prefix_append (p s rest : string) :
  strip_prefix p s = Some rest <-> s = p ++ rest.
Proof.
  revert s. induction p as [|a p IH]; intros s; cbn.
  - split; [intros [= ->] | intros ->]; reflexivity.
  - destruct s as [|b s]; [split; discriminate|].
    destruct (Ascii.eqb_spec a b) as [<- | Hne].
    + rewrite IH. split; [intros -> | intros [= ->]]; reflexivity.
    + split; [discriminate | intros [= E _]; congruence].
Qed.

(** X2.  [validateSequenceId] accepts exactly the identifiers made of
    the prefix [sequence_] followed by at least one character, all of
    them letters, digits, underscore or hyphen; anything else is a
    validation error, and nothing is ever emitted. *)
Theorem sequence_id_accepted (sequenceId : string) :
  (validateSequenceId sequenceId = ret tt
   <-> exists rest,
         sequenceId = "sequence_" ++ rest
         /\ rest <> ""
         /\ all_chars is_id_char rest = true)
  /\ (validateSequenceId sequenceId = ret tt
      \/ validateSequenceId sequenceId
         = validation_error
             "Sequence ID must be a valid prefix_id (e.g. sequence_abc123).").
Proof.
  unfold validateSequenceId.
  destruct (strip_prefix "sequence_" sequenceId) as [rest|] eqn:E.
  - apply strip_prefix_append in E.
    destruct (negb (rest =? "")%string && all_chars is_id_char rest) eqn:Hok.
    + split; [|left; reflexivity]. split; [intros _ | reflexivity].
      apply andb_prop in Hok as [Hne Hall]. exists rest. repeat split; trivial.
      intros ->. discriminate.
    + split; [|right; reflexivity]. split; [discriminate|].
      intros (rest' & E' & Hne & Hall). exfalso.
      rewrite E in E'. apply (f_equal (strip_prefix "sequence_")) in E'.
      cbn in E'. injection E' as <-.
      rewrite Hall, andb_true_r in Hok. apply negb_false_iff, String.eqb_eq in Hok.
      contradiction.
  - split; [|right; reflexivity]. split; [discriminate|].
    intros (rest & E' & _). apply strip_prefix_append in E'. congruence.
Qed.

Lemma sequence_id_accepted_witness :
  validateSequenceId "sequence_abc123" = ret tt.
Proof.
  apply (proj2 (proj1 (sequence_id_accepted "sequence_abc123"))).
  exists "abc123". split; [reflexivity|]. split; [discriminate | reflexivity].
Defined.

Example sequence_id_examples :
  validateSequenceId "sequence_abc-123_X" = ret tt
  /\ succeeded (validateSequenceId "sequence_") = false
  /\ succeeded (validateSequenceId "Sequence_1") = false
  /\ succeeded (validateSequenceId "sequence_a b") = false
  /\ succeeded (validateSequenceId ("sequence_1" ++ newline)) = false.
Proof. repeat split. Qed.

Lemma validateHtmlSize_ok (h : string) :
  validateHtmlSize h = ret tt -> within_size h.
Proof.
  unfold validateHtmlSize, within_size.
  destruct (MAX_TEMPLATE_HTML_BYTES <? N.of_nat (String.length h))%N eqn:E;
    [discriminate|]. intros _. now apply N.ltb_ge in E.
Qed.

Lemma validateHtmlSize_fails (h : string) :
  (MAX_TEMPLATE_HTML_BYTES < N.of_nat (String.length h))%N ->
  validateHtmlSize h = validation_error SIZE_MESSAGE.
Proof.
  intros H. unfold validateHtmlSize. apply N.ltb_lt in H. now rewrite H.
Qed.

Section WithEnv.

Variable env : Env.

(** X3.  When [resolveHtmlInput] returns, the HTML is within the size
    limit and came from exactly one place: the inline value, unchanged
    and with no file touched, or the content of the one file read at the
    resolved path, which lies inside the working directory. *)
Theorem html_input_resolved (html htmlFile : option string) (t : list event)
    (content : string) :
  resolveHtmlInput env html htmlFile = (t, Done content) ->
  within_size content
  /\ ((truthy html = true /\ truthy htmlFile = false
       /\ content = flag_value html /\ t = [])
      \/ (truthy html = false /\ truthy htmlFile = true
          /\ isOutsideProject env (flag_value htmlFile) = false
          /\ t = [EvReadFile (path_resolve env (flag_value htmlFile))]
          /\ fs_readFile env (path_resolve env (flag_value htmlFile)) = ReadOk content)).
Proof.
  unfold resolveHtmlInput.
  destruct (truthy html) eqn:Hh, (truthy htmlFile) eqn:Hf; cbn [Bool.eqb];
    try discriminate.
  - destruct (SequencesFacts.validateHtmlSize_cases (flag_value html)) as [E | E];
      rewrite E; [|discriminate].
    intros [= <- <-]. split; [now apply validateHtmlSize_ok|]. left. auto.
  - unfold resolveSafeHtmlPath.
    destruct (isOutsideProject env (flag_value htmlFile)) eqn:Hout.
    { cbn [validation_error throw bind]. rewrite MonadFacts.try_catch_throw.
      destruct (SequencesFacts.rethrow_read_error_raises htmlFile
                  (CLIErr "HTML file path must be within the current working directory."
                     "VALIDATION_ERROR" 422)) as (_ & Hv & _).
      first [discriminate | intros [= _ Hr]; rewrite Hr in Hv; discriminate]. }
    rewrite MonadFacts.bind_ret. unfold readFile.
    destruct (fs_readFile env (path_resolve env (flag_value htmlFile))) as [c|e] eqn:Hread;
      cbn [bind emit ret throw app].
    + destruct (SequencesFacts.validateHtmlSize_cases c) as [E | E]; rewrite E.
      * cbn. intros [= <- <-]. split; [now apply validateHtmlSize_ok|]. right. auto.
      * cbn [validation_error throw bind]. rewrite MonadFacts.try_catch_throw.
        destruct (SequencesFacts.rethrow_read_error_raises htmlFile
                    (CLIErr "HTML content must be under 524288 bytes."
                       "VALIDATION_ERROR" 422)) as (_ & Hv & _).
        first [discriminate | intros [= _ Hr]; rewrite Hr in Hv; discriminate].
    + rewrite MonadFacts.try_catch_throw.
      destruct (SequencesFacts.rethrow_read_error_raises htmlFile e) as (_ & Hv & _).
      first [discriminate | intros [= _ Hr]; rewrite Hr in Hv; discriminate].
Qed.

(** Whatever its input, [resolveHtmlInput] reads at most one file, calls
    nothing remote, and ends with the HTML or a validation error. *)
Lemma resolveHtmlInput_shape (html htmlFile : option string) :
  (trace (resolveHtmlInput env html htmlFile) = []
   \/ exists p, trace (resolveHtmlInput env html htmlFile) = [EvReadFile p])
  /\ ((exists c, result (resolveHtmlInput env html htmlFile) = Done c
                 /\ within_size c)
      \/ exists msg, result (resolveHtmlInput env html htmlFile)
                     = Throw (CLIErr msg "VALIDATION_ERROR" 422)).
Proof.
  unfold resolveHtmlInput.
  destruct (Bool.eqb (truthy html) (truthy htmlFile)); [split; [left; reflexivity | right; eexists; reflexivity]|].
  destruct (truthy html).
  { destruct (SequencesFacts.validateHtmlSize_cases (flag_value html)) as [E | E];
      rewrite E; (split; [left; reflexivity|]);
      [left; eexists; split; [reflexivity | now apply validateHtmlSize_ok]
      | right; eexists; reflexivity]. }
  assert (Hre : forall t e,
             exists msg, try_catch (t, Throw e) (rethrow_read_error htmlFile)
                         = (t, Throw (CLIErr msg "VALIDATION_ERROR" 422))).
  { intros t e. rewrite MonadFacts.try_catch_throw.
    unfold rethrow_read_error.
    destruct (error_code e) as [code|]; [|rewrite app_nil_r; eexists; reflexivity].
    destruct (code =? "ENOENT")%string; [rewrite app_nil_r; eexists; reflexivity|].
    destruct (code =? "EACCES")%string; rewrite app_nil_r; eexists; reflexivity. }
  unfold resolveSafeHtmlPath.
  destruct (isOutsideProject env (flag_value htmlFile)).
  { cbn [validation_error throw bind]. destruct (Hre [] (CLIErr
      "HTML file path must be within the current working directory."
      "VALIDATION_ERROR" 422)) as [msg ->].
    split; [left; reflexivity | right; eexists; reflexivity]. }
  rewrite MonadFacts.bind_ret. unfold readFile.
  destruct (fs_readFile env (path_resolve env (flag_value htmlFile))) as [c|e];
    cbn [bind emit ret throw app].
  - destruct (SequencesFacts.validateHtmlSize_cases c) as [E | E]; rewrite E.
    + cbn. split; [right; eexists; reflexivity|].
      left. eexists. split; [reflexivity | now apply validateHtmlSize_ok].
    + cbn [validation_error throw bind].
      destruct (Hre [EvReadFile (path_resolve env (flag_value htmlFile))]
                  (CLIErr "HTML content must be under 524288 bytes."
                     "VALIDATION_ERROR" 422)) as [msg ->].
      split; right; eexists; reflexivity.
  - destruct (Hre [EvReadFile (path_resolve env (flag_value htmlFile))] e) as [msg ->].
    split; right; eexists; reflexivity.
Qed.

Lemma delay_input_valid (interval count : option string) :
  validateDelayOptions interval count = ret tt ->
  valid_delay interval
    (if truthy count then parse_positive_roundtrip (flag_value count) else None).
Proof.
  unfold validateDelayOptions, valid_delay.
  destruct (truthy interval) eqn:Hi, (truthy count) eqn:Hc; cbn [negb andb orb];
    try discriminate; [|intros _; left; auto].
  rewrite MonadFacts.bind_ret.
  destruct (existsb (String.eqb (flag_value interval)) ALLOWED_DELAY_INTERVALS) eqn:Hin;
    cbn [negb andb]; [|discriminate].
  rewrite MonadFacts.bind_ret.
  destruct (parse_positive_roundtrip (flag_value count)) as [n|] eqn:Hp; [|discriminate].
  destruct (MAX_DELAY_COUNT <? n)%N eqn:Hmax; [discriminate|]. intros _.
  right. split.
  - apply existsb_exists in Hin as (x & Hx & E). apply String.eqb_eq in E. now subst.
  - exists n. split; [reflexivity|]. apply N.ltb_ge in Hmax.
    pose proof (roundtrip_positive _ _ Hp). unfold MAX_DELAY_COUNT in Hmax. lia.
Qed.

(** Every run of create-email has one of three shapes: it stops before
    the request, the request fails, or the request succeeds. *)
Lemma create_run (o : CreateEmailOptions) :
  exists reads,
    (reads = [] \/ exists p, reads = [EvReadFile p])
    /\ ((exists msg,
           createEmailAction env o
           = ((reads ++ [EvFailSpinner; EvOutError msg])%list, Exit 1))
        \/ exists input,
             valid_request o input
             /\ ((exists e,
                    createEmailAction env o
                    = ((reads ++ [EvStartSpinner "Creating sequence email...";
                                  EvCreateSequenceEmail (sequenceId o) input;
                                  EvFailSpinner; EvOutError (exn_message e)])%list,
                       Exit 1))
                 \/ exists out,
                      createEmailAction env o
                      = ((reads ++ [EvStartSpinner "Creating sequence email...";
                                    EvCreateSequenceEmail (sequenceId o) input;
                                    EvStopSpinner (Some "Sequence email created");
                                    out])%list, Done tt)
                      /\ is_remote out = false /\ is_read out = false)).
Proof.
  unfold createEmailAction.
  destruct (SequencesFacts.validateSequenceId_cases (sequenceId o)) as [Hid | [m Hid]];
    rewrite Hid.
  2:{ exists []. split; [now left|]. left. exists m. reflexivity. }
  rewrite MonadFacts.bind_ret.
  pose proof (resolveHtmlInput_shape (html o) (htmlFile o)) as [Ht Hr].
  destruct (resolveHtmlInput env (html o) (htmlFile o)) as [t r] eqn:Hres.
  cbn [trace result fst snd] in Ht, Hr. exists t. split; [exact Ht|].
  destruct Hr as [(c & -> & Hsize) | [msg ->]].
  2:{ left. exists msg. reflexivity. }
  cbn [bind].
  destruct (delay_options_pure (delayInterval o) (delayCount o))
    as [Hd | [m Hd]]; rewrite Hd.
  2:{ left. exists m. cbn. now rewrite app_nil_r. }
  rewrite MonadFacts.bind_ret.
  right.
  exists (mkCreateInput (subject o) c (inboxSnippet o) (delayInterval o)
            (if truthy (delayCount o)
             then parse_positive_roundtrip (flag_value (delayCount o))
             else None)
            (editorChoice o) (cc o) (bcc o) (to o)).
  split.
  { repeat split; cbn [ci_subject ci_html ci_delayInterval ci_delayCount];
      [exact Hid | exact Hsize | now apply delay_input_valid]. }
  unfold call_api.
  destruct (bento_createSequenceEmail env (sequenceId o) _) as [v|e].
  - right. cbn [bind emit ret app].
    destruct (output_isJson env);
      [|destruct (js_truthy (js_get_id v))]; eexists; (split; [reflexivity|]);
      split; reflexivity.
  - left. exists e. cbn. now rewrite <- app_assoc.
Qed.

(** Every run of update-email has one of the same three shapes. *)
Lemma update_run (u : UpdateEmailOptions) :
  exists reads,
    (reads = [] \/ exists p, reads = [EvReadFile p])
    /\ ((exists msg,
           updateEmailAction env u
           = ((reads ++ [EvFailSpinner; EvOutError msg])%list, Exit 1))
        \/ exists input,
             valid_update u input
             /\ ((exists e,
                    updateEmailAction env u
                    = ((reads ++ [EvStartSpinner "Updating sequence email...";
                                  EvUpdateSequenceEmail (templateId u) input;
                                  EvFailSpinner; EvOutError (exn_message e)])%list,
                       Exit 1))
                 \/ exists out,
                      updateEmailAction env u
                      = ((reads ++ [EvStartSpinner "Updating sequence email...";
                                    EvUpdateSequenceEmail (templateId u) input;
                                    EvStopSpinner (Some "Sequence email updated");
                                    out])%list, Done tt)
                      /\ is_remote out = false /\ is_read out = false)).
Proof.
  unfold updateEmailAction, resolveOptionalHtmlInput, call_api.
  destruct (truthy (u_html u)) eqn:Hh, (truthy (u_htmlFile u)) eqn:Hf; cbn [negb andb].
  4:{ rewrite MonadFacts.bind_ret. exists []. split; [now left|].
      destruct (truthy (u_subject u)) eqn:Hs; cbn [negb andb truthy].
      - right. exists (mkUpdateInput (u_subject u) None).
        split; [repeat split; [now left | discriminate]|].
        cbn [bind ret emit app].
        destruct (bento_updateSequenceEmail env (templateId u) _) as [v|e].
        + right. destruct (output_isJson env); eexists;
            (split; [reflexivity|]); split; reflexivity.
        + left. exists e. reflexivity.
      - left. eexists. reflexivity. }
  all: pose proof (resolveHtmlInput_shape (u_html u) (u_htmlFile u)) as [Ht Hr];
    destruct (resolveHtmlInput env (u_html u) (u_htmlFile u)) as [t r] eqn:Hres;
    cbn [trace result fst snd] in Ht, Hr; exists t; (split; [exact Ht|]);
    destruct Hr as [(c & -> & Hsize) | [msg ->]]; [|left; exists msg; reflexivity];
    (destruct (negb (truthy (u_subject u)) && negb (truthy (Some c))) eqn:Hempty;
     [left; eexists; cbn [bind ret emit app validation_error throw try_catch];
      rewrite Hempty; cbn; rewrite ?app_nil_r; reflexivity|]);
    right; exists (mkUpdateInput (u_subject u) (Some c));
    (split;
     [repeat split;
      [apply andb_false_iff in Hempty as [E | E]; apply negb_false_iff in E; auto
      | now intros h [= <-]]|]);
    cbn [bind ret emit app]; rewrite Hempty; cbn [bind ret emit app];
    (destruct (bento_updateSequenceEmail env (templateId u) _) as [v|e];
     [right; destruct (output_isJson env); eexists;
      (split; [cbn; rewrite ?app_nil_r, <- ?app_assoc; reflexivity|]);
      split; reflexivity
     |left; exists e; cbn; rewrite ?app_nil_r, <- ?app_assoc; reflexivity]).
Qed.

End WithEnv.

(** X6.  update-email never sends an empty update: every request carries
    the given template id and either a non-empty subject or non-empty
    HTML, and any HTML it carries is within the size limit. *)
Theorem update_request_not_empty (env : Env) (u : UpdateEmailOptions)
    (tid : string) (input : UpdateSequenceEmailInput) :
  In (EvUpdateSequenceEmail tid input) (trace (updateEmailAction env u)) ->
  tid = templateId u /\ valid_update u input.
Proof.
  destruct (update_run env u) as (reads & Hreads & Hrun).
  assert (Hnot : ~ In (EvUpdateSequenceEmail tid input) reads).
  { destruct Hreads as [-> | [p ->]]; [intros [] | intros [H | []]; discriminate]. }
  destruct Hrun as [[msg ->] | (input' & Hvalid & [[e ->] | (out & -> & Hout & _)])];
    cbn [trace fst]; intros Hin; apply in_app_or in Hin as [Hin | Hin];
    try contradiction; cbn in Hin.
  - destruct Hin as [H | [H | []]]; discriminate.
  - destruct Hin as [H | [H | [H | [H | []]]]]; try discriminate.
    injection H as <- <-. split; [reflexivity | exact Hvalid].
  - destruct Hin as [H | [H | [H | [H | []]]]]; try discriminate.
    + injection H as <- <-. split; [reflexivity | exact Hvalid].
    + subst out. discriminate.
Qed.

Lemma update_request_not_empty_witness :
  valid_update (mkUpdateEmailOptions "12345" (Some "Hello") None None)
    (mkUpdateInput (Some "Hello") None).
Proof.
  apply (update_request_not_empty Demo.batch
           (mkUpdateEmailOptions "12345" (Some "Hello") None None) "12345").
  cbn. right. left. reflexivity.
Defined.

(** X7.  update-email never lets an exception escape: a run ends
    normally after exactly one request, or with exit code 1 after the
    spinner is failed and one error message printed.  No run sends more
    than one request or reads more than one file. *)
Theorem update_outcome (env : Env) (u : UpdateEmailOptions) :
  ((result (updateEmailAction env u) = Done tt
    /\ length (remote_calls (trace (updateEmailAction env u))) = 1)
   \/ (result (updateEmailAction env u) = Exit 1
       /\ exists t msg,
            trace (updateEmailAction env u)
            = (t ++ [EvFailSpinner; EvOutError msg])%list))
  /\ length (remote_calls (trace (updateEmailAction env u))) <= 1
  /\ length (file_reads (trace (updateEmailAction env u))) <= 1.
Proof.
  destruct (update_run env u) as (reads & Hreads & Hrun).
  assert (Hr : remote_calls reads = [] /\ length (file_reads reads) <= 1).
  { destruct Hreads as [-> | [p ->]]; cbn; split; auto. }
  destruct Hr as [Hr1 Hr2].
  unfold remote_calls, file_reads in *.
  destruct Hrun as [[msg ->] | (input & _ & [[e ->] | (out & -> & Hout & Hout')])];
    cbn [trace result fst snd]; rewrite !filter_app, Hr1, !length_app;
    cbn [filter is_remote is_read length app]; rewrite ?Hout, ?Hout'; cbn [length].
  - split; [right; split; [reflexivity | eauto] | lia].
  - split; [right; split; [reflexivity|] | lia].
    exists (reads ++ [EvStartSpinner "Updating sequence email...";
                      EvUpdateSequenceEmail (templateId u) input])%list, (exn_message e).
    now rewrite <- app_assoc.
  - split; [left; split; reflexivity | lia].
Qed.

(** An empty HTML file counts as no HTML: without a subject the command
    reads it and then refuses the update. *)
Example update_with_empty_file :
  updateEmailAction
    (mkEnv (fun _ => ReadOk "") Demo.cwd (PosixPath.resolve Demo.cwd)
       (PosixPath.relative Demo.cwd) PosixPath.isAbsolute true
       (fun _ => true) (fun _ _ => ApiOk JNull) (fun _ _ => ApiOk JNull)
       (fun _ => None) false false [])
    (mkUpdateEmailOptions "12345" None None (Some "empty.html"))
  = ([EvReadFile "/work/empty.html"; EvFailSpinner;
      EvOutError "At least one of --subject, --html, or --html-file must be provided."],
     Exit 1).
Proof. reflexivity. Qed.



(** X5.  create-email never lets an exception escape: a run ends
    normally after exactly one request, or with exit code 1 after the
    spinner is failed and one error message printed.  No run sends more
    than one request or reads more than one file. *)
Theorem create_outcome (env : Env) (o : CreateEmailOptions) :
  ((result (createEmailAction env o) = Done tt
    /\ length (remote_calls (trace (createEmailAction env o))) = 1)
   \/ (result (createEmailAction env o) = Exit 1
       /\ exists t msg,
            trace (createEmailAction env o)
            = (t ++ [EvFailSpinner; EvOutError msg])%list))
  /\ length (remote_calls (trace (createEmailAction env o))) <= 1
  /\ length (file_reads (trace (createEmailAction env o))) <= 1.
Proof.
  destruct (create_run env o) as (reads & Hreads & Hrun).
  assert (Hr : remote_calls reads = [] /\ length (file_reads reads) <= 1).
  { destruct Hreads as [-> | [p ->]]; cbn; split; auto. }
  destruct Hr as [Hr1 Hr2].
  unfold remote_calls, file_reads in *.
  destruct Hrun as [[msg ->] | (input & _ & [[e ->] | (out & -> & Hout & Hout')])];
    cbn [trace result fst snd]; rewrite !filter_app, Hr1, !length_app;
    cbn [filter is_remote is_read length app]; rewrite ?Hout, ?Hout'; cbn [length].
  - split; [right; split; [reflexivity | eauto] | lia].
  - split; [right; split; [reflexivity|] | lia].
    exists (reads ++ [EvStartSpinner "Creating sequence email...";
                      EvCreateSequenceEmail (sequenceId o) input])%list, (exn_message e).
    now rewrite <- app_assoc.
  - split; [left; split; reflexivity | lia].
Qed.

(** X8.  When the one file cannot be read, [resolveHtmlInput] has tried
    exactly that read and raises a validation error naming the file as
    given: not found for ENOENT, permission denied for EACCES, unable to
    read for anything else. *)
Theorem read_failure_reported (env : Env) (html htmlFile : option string) (e : exn) :
  truthy html = false ->
  truthy htmlFile = true ->
  isOutsideProject env (flag_value htmlFile) = false ->
  fs_readFile env (path_resolve env (flag_value htmlFile)) = ReadFail e ->
  resolveHtmlInput env html htmlFile
  = ([EvReadFile (path_resolve env (flag_value htmlFile))],
     Throw (CLIErr (read_failure_prefix e ++ flag_value htmlFile) "VALIDATION_ERROR" 422)).
Proof.
  intros Hh Hf Hout Hread. unfold resolveHtmlInput, resolveSafeHtmlPath, readFile.
  rewrite Hh, Hf, Hout. cbn [Bool.eqb]. rewrite MonadFacts.bind_ret, Hread.
  cbn [bind emit ret throw app]. rewrite MonadFacts.try_catch_throw.
  unfold rethrow_read_error, read_failure_prefix.
  destruct (error_code e) as [code|]; [|reflexivity].
  destruct (code =? "ENOENT")%string; [reflexivity|].
  destruct (code =? "EACCES")%string; reflexivity.
Qed.

Lemma read_failure_reported_witness :
  resolveHtmlInput Demo.batch None (Some "locked.html")
  = ([EvReadFile "/work/locked.html"],
     Throw (CLIErr "Cannot read HTML file (permission denied): locked.html"
              "VALIDATION_ERROR" 422)).
Proof.
  apply (read_failure_reported Demo.batch None (Some "locked.html") (SysErr "EACCES"));
    reflexivity.
Defined.

(** X9.  HTML over the size limit is refused, but under two different
    messages: given inline it is reported as too large; read from a file
    it is reported as a file that could not be read, because the size
    check runs inside the handler of the read. *)
Theorem oversized_html (env : Env) (content file : string) :
  (MAX_TEMPLATE_HTML_BYTES < N.of_nat (String.length content))%N ->
  file <> "" ->
  isOutsideProject env file = false ->
  fs_readFile env (path_resolve env file) = ReadOk content ->
  resolveHtmlInput env (Some content) None = validation_error SIZE_MESSAGE
  /\ resolveHtmlInput env None (Some file)
     = ([EvReadFile (path_resolve env file)],
        Throw (CLIErr ("Unable to read HTML file: " ++ file) "VALIDATION_ERROR" 422)).
Proof.
  intros Hbig Hfile Hout Hread.
  pose proof (validateHtmlSize_fails content Hbig) as Hsize.
  assert (Hc : truthy (Some content) = true).
  { destruct content; [cbn in Hbig; unfold MAX_TEMPLATE_HTML_BYTES in Hbig; lia|].
    reflexivity. }
  assert (Hf : truthy (Some file) = true) by (destruct file; [contradiction | reflexivity]).
  split; unfold resolveHtmlInput.
  - rewrite Hc. cbn [truthy Bool.eqb flag_value]. now rewrite Hsize.
  - rewrite Hf. cbn [truthy Bool.eqb flag_value].
    unfold resolveSafeHtmlPath, readFile. rewrite Hout, MonadFacts.bind_ret, Hread.
    cbn [bind emit ret app]. rewrite Hsize. reflexivity.
Qed.

Lemma oversized_html_witness :
  resolveHtmlInput Oversize.env (Some Oversize.big) None = validation_error SIZE_MESSAGE.
Proof.
  apply (oversized_html Oversize.env Oversize.big "email.html").
  - vm_compute. reflexivity.
  - discriminate.
  - reflexivity.
  - reflexivity.
Defined.

Lemma html_input_resolved_witness :
  within_size "<p>Hello</p>".
Proof.
  apply (html_input_resolved Demo.batch None (Some "email.html")
           [EvReadFile "/work/email.html"] "<p>Hello</p>").
  reflexivity.
Defined.

End SequencesMore.

(** * The unsubscribe callback: order and completeness of the calls *)

Module ExecuteFacts.

Import Unsubscribe Calls.

Section WithEnv.

Variable env : Env.

Lemma unsubscribe_each_done_iff (l : list string) :
  result (unsubscribe_each env l) = Done tt
  <-> forall x, In x l -> bento_unsubscribe env x = None.
Proof.
  induction l as [|x l IH]; cbn [unsubscribe_each].
  - split; [intros _ y [] | reflexivity].
  - unfold bento_unsubscribe_call.
    destruct (bento_unsubscribe env x) as [e|] eqn:Hx; cbn [bind emit ret throw app].
    + split; [discriminate|]. intros H. specialize (H x (or_introl eq_refl)). congruence.
    + destruct (unsubscribe_each env l) as [t r]. cbn [result snd] in *.
      rewrite IH. split.
      * intros H y [<- | Hy]; auto.
      * intros H y Hy. apply H. now right.
Qed.

(** The calls made are always the first [k] targets, in order; they are
    all of them exactly when the loop completes, and otherwise the last
    one is the call that was rejected. *)
Lemma unsubscribe_each_prefix (l : list string) :
  exists k,
    k <= length l
    /\ trace (unsubscribe_each env l) = map EvUnsubscribe (firstn k l)
    /\ ((result (unsubscribe_each env l) = Done tt /\ k = length l)
        \/ exists e x,
             result (unsubscribe_each env l) = Throw e
             /\ nth_error l (k - 1) = Some x
             /\ 0 < k
             /\ bento_unsubscribe env x = Some e).
Proof.
  induction l as [|x l IH]; cbn [unsubscribe_each].
  - exists 0. repeat split; auto.
  - unfold bento_unsubscribe_call.
    destruct (bento_unsubscribe env x) as [e|] eqn:Hx; cbn [bind emit ret throw app].
    + exists 1. split; [cbn; lia|]. split; [reflexivity|].
      right. exists e, x. cbn. auto.
    + destruct IH as (k & Hk & Ht & Hr).
      destruct (unsubscribe_each env l) as [t r]. cbn [trace result fst snd] in *.
      exists (S k). split; [cbn; lia|]. split; [cbn; now rewrite Ht|].
      destruct Hr as [[-> ->] | (e & y & -> & Hy & Hpos & He)]; [left; auto|].
      right. exists e, y. split; [reflexivity|]. split; [|split; [lia | exact He]].
      destruct k; [lia|]. cbn in *. now rewrite Nat.sub_0_r in Hy.
Qed.

End WithEnv.

(** X10.  The unsubscribe callback completes exactly when every remote
    call succeeds; it has then called the API once per target, in the
    order given, and printed one summary whose count is the number of
    targets: the JSON envelope in machine-readable mode, the sentence
    otherwise. *)
Theorem execute_completes_iff (env : Env) (emails : list string) :
  (result (execute env emails) = Done tt
   <-> forall x, In x emails -> bento_unsubscribe env x = None)
  /\ (result (execute env emails) = Done tt ->
      trace (execute env emails)
      = (map EvUnsubscribe emails
         ++ [if output_isJson env
             then EvOutJson
                    (JObj [("success", JBool true); ("error", JNull);
                           ("data", JObj [("updated", JNum (length emails));
                                          ("action", JStr "unsubscribe")]);
                           ("meta", JObj [("count", JNum (length emails))])])
             else EvOutSuccess
                    ("Unsubscribed " ++ nat_to_string (length emails)
                     ++ " subscriber(s).")])%list).
Proof.
  assert (Hiff : result (execute env emails) = Done tt
                 <-> forall x, In x emails -> bento_unsubscribe env x = None).
  { rewrite <- unsubscribe_each_done_iff. unfold execute.
    destruct (unsubscribe_each env emails) as [t [[]|e|c]]; cbn [bind result snd].
    - unfold emitResult. destruct (output_isJson env); cbn; tauto.
    - split; discriminate.
    - split; discriminate. }
  split; [exact Hiff|].
  intros Hdone. rewrite (UnsubscribeFacts.execute_ok env emails (proj1 Hiff Hdone)).
  unfold emitResult. destruct (output_isJson env); reflexivity.
Qed.

Lemma execute_completes_iff_witness :
  trace (execute Demo.batch ["a@x.com"; "b@x.com"])
  = [EvUnsubscribe "a@x.com"; EvUnsubscribe "b@x.com";
     EvOutJson
       (JObj [("success", JBool true); ("error", JNull);
              ("data", JObj [("updated", JNum 2); ("action", JStr "unsubscribe")]);
              ("meta", JObj [("count", JNum 2)])])].
Proof.
  apply (execute_completes_iff Demo.batch ["a@x.com"; "b@x.com"]). reflexivity.
Defined.

(** X11.  On every run the remote calls of the callback are the first
    [k] targets in the order given, each once, for some [k]: never more
    calls than targets, never one out of order.  When the callback throws
    it prints no summary, and what it throws is the failure of its last
    call. *)
Theorem execute_calls_in_order (env : Env) (emails : list string) :
  exists k,
    k <= length emails
    /\ remote_calls (trace (execute env emails)) = map EvUnsubscribe (firstn k emails)
    /\ (result (execute env emails) = Done tt /\ k = length emails
        \/ exists e x,
             result (execute env emails) = Throw e
             /\ trace (execute env emails) = map EvUnsubscribe (firstn k emails)
             /\ nth_error emails (k - 1) = Some x
             /\ 0 < k
             /\ bento_unsubscribe env x = Some e).
Proof.
  assert (Hmap : forall l, remote_calls (map EvUnsubscribe l) = map EvUnsubscribe l).
  { unfold remote_calls. induction l as [|y l IH]; cbn; [reflexivity | now rewrite IH]. }
  destruct (unsubscribe_each_prefix env emails) as (k & Hk & Ht & Hr).
  exists k. split; [exact Hk|]. unfold execute.
  destruct (unsubscribe_each env emails) as [t r]. cbn [trace result fst snd] in *.
  subst t.
  destruct Hr as [[-> ->] | (e & x & -> & Hx & Hpos & He)].
  - cbn [bind]. unfold emitResult, remote_calls.
    destruct (output_isJson env); cbn [emit trace fst];
      rewrite filter_app; cbn [filter is_remote]; rewrite app_nil_r;
      (split; [apply Hmap | left; split; reflexivity]).
  - cbn [bind trace fst]. split; [apply Hmap|].
    right. exists e, x. repeat split; auto.
Qed.

End ExecuteFacts.

(** * Profile commands *)

Module ProfileFacts.

Import Profile.

Example add_interactive_trims :
  addAction (demo true true) "new" None (Some "site-9")
  = ([PvHasProfile "new";
      PvInfo ("Creating profile " ++ quoted "new");
      PvLog "Find your credentials at: https://app.bentonow.com/settings/api";
      PvNewline;
      PvPassword "Enter your Bento API key:";
      PvStartSpinner "Validating credentials...";
      PvValidate "key-1" "site-9";
      PvStopSpinner "Credentials validated";
      PvSetProfile "new" "key-1" "site-9";
      PvJson (envelope (JObj [("profile", JStr "new"); ("siteId", JStr "site-9")]) 1)],
     PDone tt).
Proof. reflexivity. Qed.

Example add_blank_key_refused :
  addAction (demo true true) "new" (Some "   ") (Some "site-9")
  = ([PvHasProfile "new"; PvError "API key cannot be empty."], PExit 1).
Proof. reflexivity. Qed.

Example remove_declined :
  removeAction (demo true false) "home" None
  = ([PvHasProfile "home";
      PvConfirm ("Are you sure you want to remove profile " ++ quoted "home" ++ "?");
      PvInfo "Aborted."], PDone tt).
Proof. reflexivity. Qed.

Example remove_current_with_yes :
  removeAction (demo false false) "work" (Some true)
  = ([PvHasProfile "work"; PvGetCurrent; PvRemoveProfile "work"; PvReset;
      PvSuccess ("Profile " ++ quoted "work" ++ " removed");
      PvInfo "This was the active profile. Run 'bento auth login' or 'bento profile use <name>' to authenticate."],
     PDone tt).
Proof. reflexivity. Qed.

Example use_unknown_profile :
  useAction (demo false true) "nope"
  = ([PvUseProfile "nope";
      PvError ("Profile " ++ quoted "nope" ++ " does not exist")], PExit 1).
Proof. reflexivity. Qed.

Ltac split_in H :=
  repeat (destruct H as [H | H]; [try discriminate H|]); try contradiction.

(** Follow one run: reduce, and split on the next answer or flag the
    run is waiting for. *)
Ltac step :=
  match goal with
  | |- context [match ?x with _ => _ end] =>
      lazymatch type of x with
      | bool => destruct x eqn:?
      | answer _ => destruct x eqn:?
      | option _ => destruct x eqn:?
      | perr => destruct x
      | unit => destruct x
      end
  end.

Ltac reduce :=
  cbv beta iota zeta
    delta [pbind pemit pret pthrow pexit pcatch ptrace presult fst snd app In];
  cbn [negb orb andb].

Ltac run := reduce; repeat (step; reduce).

Ltac tidy :=
  repeat match goal with
    | H : negb _ = true |- _ => apply negb_true_iff in H
    | H : negb _ = false |- _ => apply negb_false_iff in H
    | H : _ || _ = false |- _ => apply orb_false_iff in H as [? ?]
    | H : _ && _ = true |- _ => apply andb_prop in H as [? ?]
    | H : (_ =? _)%string = true |- _ => apply String.eqb_eq in H
    end; subst; try discriminate.

(** X12.  [profile remove] deletes only the profile it was asked to, only
    if that profile exists, and only with consent: [--yes], or a yes to
    the prompt on a terminal.  It prompts only on a terminal and only
    without [--yes]. *)
Theorem remove_needs_consent (env : ProfileEnv) (name : string) (yes : option bool) :
  (forall n, In (PvRemoveProfile n) (ptrace (removeAction env name yes)) ->
     n = name
     /\ config_hasProfile env name = Ok true
     /\ (flag yes = true \/ (isTTY env = true /\ ask_confirm env = Ok true)))
  /\ (forall msg, In (PvConfirm msg) (ptrace (removeAction env name yes)) ->
        flag yes = false /\ isTTY env = true /\ config_hasProfile env name = Ok true).
Proof.
  unfold removeAction, call, on_error. run;
    (split; [intros n Hin | intros msg Hin]); split_in Hin;
    try (injection Hin as <-); tidy; auto 6.
Qed.

Lemma remove_needs_consent_witness :
  config_hasProfile (demo false false) "work" = Ok true.
Proof.
  apply (proj1 (remove_needs_consent (demo false false) "work" (Some true)) "work").
  cbn. do 2 right. left. reflexivity.
Defined.

(** X13.  [profile remove] resets the SDK client exactly when it has
    removed the profile that was current: the profile exists, consent
    was given, the current profile's name is the one removed, and the
    removal succeeded. *)
Theorem remove_resets_iff_current (env : ProfileEnv) (name : string) (yes : option bool) :
  In PvReset (ptrace (removeAction env name yes))
  <-> config_hasProfile env name = Ok true
      /\ (flag yes = true \/ (isTTY env = true /\ ask_confirm env = Ok true))
      /\ config_getCurrentProfileName env = Ok (Some name)
      /\ config_removeProfile env name = Ok tt.
Proof.
  split.
  - unfold removeAction, call, on_error. run; intros Hin; split_in Hin; tidy;
      repeat match goal with
        | u : unit |- _ => destruct u
        | H : match ?o with Some _ => _ | None => _ end = true |- _ =>
            destruct o; [|discriminate H]
        end; tidy; auto 8.
  - intros (Hhas & Hyes & Hcur & Hrm).
    unfold removeAction, call, on_error. rewrite Hhas, Hcur, Hrm.
    destruct Hyes as [-> | [-> ->]]; run;
      try match goal with
        | H : (?a =? ?a)%string = false |- _ =>
            rewrite String.eqb_refl in H; discriminate H
        end; auto 8.
Qed.

Lemma remove_resets_iff_current_witness :
  In PvReset (ptrace (removeAction (demo false false) "work" (Some true))).
Proof.
  apply (proj2 (remove_resets_iff_current (demo false false) "work" (Some true))).
  repeat split; try reflexivity. left. reflexivity.
Defined.

Import Listing.

(** X14.  [profile add] stores a profile only under the name asked for,
    only if no profile of that name existed, and only with credentials
    that were trimmed, are not empty, and were accepted by the
    validation call; each credential is the flag's value or, on a
    terminal, the prompt's answer. *)
Theorem add_saves_only_validated (env : ProfileEnv) (name : string)
    (optApiKey optSiteId : option string) (n apiKey siteId : string) :
  In (PvSetProfile n apiKey siteId) (ptrace (addAction env name optApiKey optSiteId)) ->
  n = name
  /\ config_hasProfile env name = Ok false
  /\ validateCredentials env apiKey siteId = Ok true
  /\ apiKey <> "" /\ siteId <> ""
  /\ credential_source env optApiKey (ask_password env) apiKey
  /\ credential_source env optSiteId (ask_input env) siteId.
Proof.
  unfold credential_source.
  assert (Hne : forall o, blank env o = false -> js_trim env (flag_value o) <> "").
  { intros [v|] H; [now apply String.eqb_neq in H | discriminate]. }
  unfold addAction, call, on_error. run; intros Hin; split_in Hin; tidy;
    injection Hin as <- <- <-;
    repeat match goal with
      | H : negb ?b && _ = false |- _ =>
          destruct b eqn:?; cbn in H; try discriminate H; clear H
      end;
    (split; [reflexivity|]); (split; [reflexivity|]); (split; [assumption|]);
    (split; [first [apply Hne; assumption | eapply (Hne (Some _)); eassumption]|]);
    (split; [first [apply Hne; assumption | eapply (Hne (Some _)); eassumption]|]);
    split;
    first [ left; split; [assumption | reflexivity]
          | right; split; [assumption|]; split; [assumption|];
            eexists; split; reflexivity ].
Qed.

Lemma add_saves_only_validated_witness :
  validateCredentials (demo true true) "key-1" "site-9" = Ok true.
Proof.
  apply (add_saves_only_validated (demo true true) "new" None (Some "site-9")
           "new" "key-1" "site-9").
  cbn. do 8 right. left. reflexivity.
Defined.

(** X15.  [profile add] asks for a credential only on a terminal.
    Without one, a missing [--api-key] or [--site-id] ends the command
    with exit code 1 right after the existence check: nothing is asked,
    validated or stored. *)
Theorem add_unattended (env : ProfileEnv) (name : string)
    (optApiKey optSiteId : option string) :
  (forall msg,
      In (PvPassword msg) (ptrace (addAction env name optApiKey optSiteId))
      \/ In (PvInput msg) (ptrace (addAction env name optApiKey optSiteId)) ->
      isTTY env = true)
  /\ (isTTY env = false ->
      truthy optApiKey && truthy optSiteId = false ->
      config_hasProfile env name = Ok false ->
      addAction env name optApiKey optSiteId
      = ([PvHasProfile name;
          PvError "Non-interactive mode requires --api-key and --site-id flags."],
         PExit 1)).
Proof.
  split.
  - intros msg. unfold addAction, call, on_error. run; intros [Hin | Hin];
      split_in Hin; tidy;
      repeat match goal with
        | H : negb ?b && _ = false |- _ =>
            destruct b eqn:?; cbn in H; try discriminate H; clear H
        end; auto.
  - intros Htty Hmiss Hhas. unfold addAction, call, on_error.
    rewrite Hhas, Htty.
    destruct (truthy optApiKey), (truthy optSiteId); try discriminate; reflexivity.
Qed.

Lemma add_unattended_witness :
  addAction (demo false true) "new" None (Some "site-9")
  = ([PvHasProfile "new";
      PvError "Non-interactive mode requires --api-key and --site-id flags."],
     PExit 1).
Proof.
  apply (add_unattended (demo false true) "new" None (Some "site-9")); reflexivity.
Defined.

Lemma assoc_get_nodup {A : Type} (l : list (string * A)) (n : string) (p : A) :
  NoDup (map fst l) -> In (n, p) l -> assoc_get n l = Some p.
Proof.
  induction l as [|[k v] l IH]; intros Hnd Hin; [contradiction|].
  cbn in Hnd. inversion Hnd as [|? ? Hk Hnd']; subst. cbn [assoc_get].
  destruct Hin as [[= -> ->] | Hin].
  - now rewrite String.eqb_refl.
  - destruct (String.eqb_spec n k) as [-> | _]; [|now apply IH].
    exfalso. apply Hk. apply (in_map fst) in Hin. exact Hin.
Qed.

Lemma profile_rows_found (env : ProfileEnv) (cfg : Config)
    (l : list (string * ProfileEntry)) :
  (forall n p, In (n, p) l -> assoc_get n (profiles cfg) = Some p) ->
  profile_rows env cfg (map fst l) = pret (map (entry_row env cfg) l).
Proof.
  induction l as [|[n p] l IH]; intros H; [reflexivity|].
  cbn [map fst profile_rows]. unfold profile_row at 1.
  rewrite (H n p (or_introl eq_refl)), IH by (intros n' p' Hin; apply H; now right).
  unfold entry_row, is_current, formatDateShort. cbn [fst snd].
  destruct (current cfg); reflexivity.
Qed.

(** The rows are computed without any effect, and either all of them
    are or a [TypeError] is thrown. *)
Lemma profile_rows_pure (env : ProfileEnv) (cfg : Config) (names : list string) :
  (exists rows, profile_rows env cfg names = pret rows)
  \/ profile_rows env cfg names = pthrow (OtherError "TypeError").
Proof.
  induction names as [|n names IH]; [left; eexists; reflexivity|].
  cbn [profile_rows]. unfold profile_row.
  destruct (assoc_get n (profiles cfg)); [|right; reflexivity].
  destruct IH as [[rows ->] | ->]; [left; eexists; reflexivity | right; reflexivity].
Qed.

Lemma row_json_of_entry (env : ProfileEnv) (cfg : Config) (np : string * ProfileEntry) :
  row_json (entry_row env cfg np) = entry_json env cfg np.
Proof.
  unfold row_json, entry_row, entry_json. cbn [r_name r_current r_siteId r_created].
  destruct (is_current cfg (fst np)); reflexivity.
Qed.

(** X16.  [profile list] shows every stored profile once, in the order
    of the store: in JSON mode one entry per profile, with [current]
    true exactly for the profile named as current, and a count equal to
    the number of profiles (an empty array and 0 when there are none);
    otherwise the table of the same rows, or a hint when there are
    none. *)
Theorem list_shows_every_profile (env : ProfileEnv) (cfg : Config) :
  config_load env = Ok cfg ->
  NoDup (map fst (profiles cfg)) ->
  listAction env
  = ([PvLoad;
      if isJson env
      then PvJson (envelope (JArr (map (entry_json env cfg) (profiles cfg)))
                     (length (profiles cfg)))
      else match profiles cfg with
           | [] => PvInfo "No profiles configured. Run 'bento auth login' to create one."
           | _ => PvTable (map (entry_row env cfg) (profiles cfg))
           end],
     PDone tt).
Proof.
  intros Hload Hnd. unfold listAction, call. rewrite Hload.
  cbn [pbind pemit pret app].
  rewrite (profile_rows_found env cfg (profiles cfg))
    by (intros n p Hin; now apply assoc_get_nodup).
  rewrite length_map.
  destruct (profiles cfg) as [|np l].
  - cbn. destruct (isJson env); reflexivity.
  - cbn [length Nat.eqb pbind pret app].
    destruct (isJson env); cbn [pbind pemit pret pcatch app]; [|reflexivity].
    rewrite map_map, length_map.
    rewrite (map_ext _ _ (row_json_of_entry env cfg)). reflexivity.
Qed.

Lemma list_shows_every_profile_witness :
  listAction (demo false true)
  = ([PvLoad;
      PvJson (envelope
                (JArr [JObj [("name", JStr "work"); ("current", JBool true);
                             ("siteId", JStr "site-1"); ("created", JStr "2024-01-02")];
                       JObj [("name", JStr "home"); ("current", JBool false);
                             ("siteId", JStr "site-2"); ("created", JStr "2024-03-04")]])
                2)],
     PDone tt).
Proof.
  apply (list_shows_every_profile (demo false true)
           (mkConfig (Some "work")
              [("work", mkEntry "site-1" "2024-01-02T00:00:00Z");
               ("home", mkEntry "site-2" "2024-03-04T00:00:00Z")])).
  - reflexivity.
  - cbn. repeat constructor; cbn; intuition discriminate.
Defined.

(** X17.  In all four profile commands a [ConfigError] never escapes:
    the handler turns it into a printed message and exit code 1, and 1 is
    the only exit code the commands use.  Other errors pass through. *)
Theorem config_errors_are_reported (env : ProfileEnv) (name : string)
    (optApiKey optSiteId : option string) (yes : option bool) :
  well_ended (addAction env name optApiKey optSiteId)
  /\ well_ended (listAction env)
  /\ well_ended (useAction env name)
  /\ well_ended (removeAction env name yes)
  /\ (forall m, config_useProfile env name = Fail (ConfigError m) ->
        useAction env name = ([PvUseProfile name; PvError m], PExit 1))
  /\ (forall m, config_useProfile env name = Fail (OtherError m) ->
        useAction env name = ([PvUseProfile name], PThrow (OtherError m))).
Proof.
  unfold well_ended.
  split; [|split; [|split; [|split; [|split]]]].
  - unfold addAction, call, on_error. run; split; intros; try discriminate;
      match goal with H : PExit _ = PExit _ |- _ => now injection H end.
  - unfold listAction, call, on_error. run;
      try (split; intros; try discriminate;
           match goal with H : PExit _ = PExit _ |- _ => now injection H end).
    all: match goal with
         | |- context [profile_rows ?e ?cfg ?names] =>
             destruct (profile_rows_pure e cfg names) as [[rows ->] | ->]
         end; run; split; intros; try discriminate;
      match goal with H : PExit _ = PExit _ |- _ => now injection H end.
  - unfold useAction, call, on_error. run; split; intros; try discriminate;
      match goal with H : PExit _ = PExit _ |- _ => now injection H end.
  - unfold removeAction, call, on_error. run; split; intros; try discriminate;
      match goal with H : PExit _ = PExit _ |- _ => now injection H end.
  - intros m H. unfold useAction, call, on_error. now rewrite H.
  - intros m H. unfold useAction, call, on_error. now rewrite H.
Qed.

Lemma config_errors_are_reported_witness :
  useAction (demo false true) "nope"
  = ([PvUseProfile "nope";
      PvError ("Profile " ++ quoted "nope" ++ " does not exist")], PExit 1).
Proof.
  apply (config_errors_are_reported (demo false true) "nope" None None None).
  reflexivity.
Defined.

End ProfileFacts.
